(** * youtube_watch_analytics: the history extractor and the metadata enricher

  A shallow embedding of [youtube_scraper.py].  Python strings are lists
  of code points, Python integers are [Z], dictionaries written as
  literals are association lists in insertion order, and the effects of
  the two batch stages (logging calls, raised exceptions, the table held
  in the csv file) are threaded through a small state-and-exception
  monad.  The libraries the script calls (BeautifulSoup, isodate,
  datetime, csv, pandas, the service client) are modelled by their
  documented behaviour on the inputs described at each definition. *)

From Stdlib Require Import ZArith NArith List String Ascii Lia Bool.
From stdpp Require Import base tactics option list strings.

Set Default Proof Using "Type".

(* ===================================================================== *)
(** * Part I: definitions                                                 *)
(* ===================================================================== *)

(** ** Python values: strings, exceptions *)

Module PyStr.

(** A Python [str]: the sequence of its code points ([ord] of each
    character). *)
Definition pystr : Type := list N.

(** ASCII literals. *)
Definition py (s : string) : pystr :=
  List.map N_of_ascii (list_ascii_of_string s).

(** [str.isspace] on one character: the code points CPython lists as
    whitespace. *)
Definition isspace (c : N) : bool :=
  (N.leb 9 c && N.leb c 13) || (N.leb 28 c && N.leb c 32)
  || N.eqb c 133 || N.eqb c 160 || N.eqb c 5760
  || (N.leb 8192 c && N.leb c 8202)
  || N.eqb c 8232 || N.eqb c 8233 || N.eqb c 8239
  || N.eqb c 8287 || N.eqb c 12288.

Fixpoint lstrip (s : pystr) : pystr :=
  match s with
  | c :: r => if isspace c then lstrip r else s
  | [] => []
  end.

Definition rstrip (s : pystr) : pystr := rev (lstrip (rev s)).

(** [s.strip()] *)
Definition strip (s : pystr) : pystr := rstrip (lstrip s).

(** [s.startswith(p)] *)
Fixpoint startswith (p s : pystr) : bool :=
  match p, s with
  | [], _ => true
  | _ :: _, [] => false
  | a :: p', b :: s' => N.eqb a b && startswith p' s'
  end.

(** [sub in s] *)
Fixpoint contains (sub s : pystr) : bool :=
  startswith sub s ||
  match s with
  | [] => false
  | _ :: r => contains sub r
  end.

(** [s.replace(old, new)] for a non-empty [old]: scan from the left,
    an occurrence is replaced and the scan resumes after it.  [skip]
    counts the characters of the current occurrence still to pass. *)
Fixpoint replace_go (old new : pystr) (skip : nat) (s : pystr) : pystr :=
  match s with
  | [] => []
  | c :: r =>
      match skip with
      | S k => replace_go old new k r
      | O =>
          if startswith old s
          then new ++ replace_go old new (pred (length old)) r
          else c :: replace_go old new O r
      end
  end.

Definition replace (old new s : pystr) : pystr :=
  match old with
  | [] => new ++ flat_map (fun c => c :: new) s
  | _ :: _ => replace_go old new O s
  end.

(** [sep.join(parts)] *)
Fixpoint join (sep : pystr) (parts : list pystr) : pystr :=
  match parts with
  | [] => []
  | [x] => x
  | x :: r => x ++ sep ++ join sep r
  end.

(** The maximal runs of non-whitespace characters of [s], in order
    (what the regular expression [\S+] finds). *)
Fixpoint words_go (cur : pystr) (s : pystr) : list pystr :=
  match s with
  | [] => match cur with [] => [] | _ => [rev cur] end
  | c :: r =>
      if isspace c
      then match cur with [] => words_go [] r | _ => rev cur :: words_go [] r end
      else words_go (c :: cur) r
  end.

Definition words (s : pystr) : list pystr := words_go [] s.

(** [s.split(sep)] for a one-character separator. *)
Fixpoint split_go (sep : N) (cur : pystr) (s : pystr) : list pystr :=
  match s with
  | [] => [rev cur]
  | c :: r =>
      if N.eqb c sep then rev cur :: split_go sep [] r
      else split_go sep (c :: cur) r
  end.

Definition split (sep : N) (s : pystr) : list pystr := split_go sep [] s.

Definition eqb (a b : pystr) : bool := bool_decide (a = b).

End PyStr.
Import PyStr.

(** ** Decimal numerals *)

Module Numeral.

Definition is_digit (c : N) : bool := N.leb 48 c && N.leb c 57.

(** The decimal digits of [n], most significant first. *)
Fixpoint digits_of (fuel : nat) (n : N) : pystr :=
  match fuel with
  | O => []
  | S f =>
      if N.ltb n 10 then [(48 + n)%N]
      else digits_of f (n / 10)%N ++ [(48 + n mod 10)%N]
  end.

Definition str_N (n : N) : pystr := digits_of (S (N.to_nat (N.size n))) n.

(** Left padding with the digit zero up to [width] characters. *)
Definition zfill (width : nat) (s : pystr) : pystr :=
  repeat 48%N (width - length s) ++ s.

(** The format specification [0Nd] applied to a Python [int]: the sign
    comes first and the zeros fill what is left of the width. *)
Definition format_0d (width : nat) (z : Z) : pystr :=
  if Z.ltb z 0 then 45%N :: zfill (pred width) (str_N (Z.to_N (- z)))
  else zfill width (str_N (Z.to_N z)).

(** The value of a run of ASCII digits. *)
Fixpoint digits_value (acc : N) (s : pystr) : option N :=
  match s with
  | [] => Some acc
  | c :: r =>
      if is_digit c then digits_value (acc * 10 + (c - 48))%N r else None
  end.

Definition parse_digits (s : pystr) : option N :=
  match s with
  | [] => None
  | _ :: _ => digits_value 0 s
  end.

(** The longest run of digits at the head of [s], and what follows. *)
Fixpoint span_digits (s : pystr) : pystr * pystr :=
  match s with
  | c :: r =>
      if is_digit c then let '(d, rest) := span_digits r in (c :: d, rest)
      else ([], s)
  | [] => ([], [])
  end.

End Numeral.
Import Numeral.


(** ** Effects: exceptions, logging calls, state *)

Module Effects.

(** The exceptions of the libraries the script calls.  [ServiceError]
    stands for whatever the service client raises (HTTP errors, network
    failures, quota), [TypeError] for what pandas raises on a value
    that the dtype of a column refuses; all of them are subclasses of
    [Exception]. *)
Inductive exn : Type :=
| KeyError (key : string)
| ValueError (what : string)
| TypeError (what : string)
| ISO8601Error
| OverflowError
| ServiceError (code : N).

Inductive outcome (A : Type) : Type :=
| Ok (a : A)
| Raise (e : exn).
Global Arguments Ok {A} a.
Global Arguments Raise {A} e.

Global Instance outcome_ret : MRet outcome := @Ok.
Global Instance outcome_bind : MBind outcome := λ A B f m,
  match m with
  | Ok a => f a
  | Raise e => Raise e
  end.

Global Instance outcome_fmap : FMap outcome := λ A B f m,
  match m with
  | Ok a => Ok (f a)
  | Raise e => Raise e
  end.

(** A computation over a state [S] that returns or raises; what it did to
    the state before raising stays done. *)
Definition M (S A : Type) : Type := S → outcome A * S.

Global Instance M_ret {S} : MRet (M S) := λ A a s, (Ok a, s).
Global Instance M_bind {S} : MBind (M S) := λ A B f m s,
  match m s with
  | (Ok a, s') => f a s'
  | (Raise e, s') => (Raise e, s')
  end.

Definition lift {S A} (o : outcome A) : M S A := λ s, (o, s).

(** [try: body except Exception as e: handler(e)] *)
Definition try_except {S A} (body : M S A) (handler : exn → M S A) : M S A :=
  λ s,
    match body s with
    | (Ok a, s') => (Ok a, s')
    | (Raise e, s') => handler e s'
    end.

(** One call of a [logging] function: its level is that of the function
    called, its arguments are kept apart from the message text. *)
Inductive log_record : Type :=
| Warning_no_title
| Debug_processing (video_url : pystr)
| Warning_none_url
| Warning_no_items (video_id : pystr)
| Warning_error (video_id : pystr) (e : exn)
| Warning_failed_extract (video_url : option pystr)
| Warning_invalid_url (video_url : option pystr).

(** States that keep the sequence of logging calls. *)
Class Logger (S : Type) : Type := add_record : log_record → S → S.

Global Instance list_logger : Logger (list log_record) := λ r l, l ++ [r].

Definition logging {S} `{Logger S} (r : log_record) : M S () :=
  λ s, (Ok (), add_record r s).

End Effects.
Import Effects.

(** ** The watch-URL pattern of the drop rule *)

Module Pattern.

(** A literal at the head of [s]: what follows it. *)
Definition lit (l : string) (s : pystr) : option pystr :=
  if startswith (py l) s then Some (drop (length (py l)) s) else None.

(** An optional literal: the continuations with and without it. *)
Definition opt (l : string) (s : pystr) : list pystr :=
  match lit l s with
  | Some r => [r; s]
  | None => [s]
  end.

(** The class [[a-zA-Z0-9_-]]. *)
Definition id_char (c : N) : bool :=
  (N.leb 97 c && N.leb c 122) || (N.leb 65 c && N.leb c 90)
  || (N.leb 48 c && N.leb c 57) || N.eqb c 95 || N.eqb c 45.

(** [https?://(?:www\.)?youtube\.com/watch\?v=([a-zA-Z0-9_-]+)] matched
    at the head of [s]. *)
Definition watch_url_at (s : pystr) : bool :=
  match lit "http" s with
  | None => false
  | Some r1 =>
      existsb (λ r2,
        match lit "://" r2 with
        | None => false
        | Some r3 =>
            existsb (λ r4,
              match lit "youtube.com/watch?v=" r4 with
              | Some (c :: _) => id_char c
              | _ => false
              end) (opt "www." r3)
        end) (opt "s" r1)
  end.

(** [re.search(pattern, s)] as a truth value: a match at some position. *)
Fixpoint watch_url_search (s : pystr) : bool :=
  watch_url_at s ||
  match s with
  | [] => false
  | _ :: r => watch_url_search r
  end.

End Pattern.
Import Pattern.

(** ** The parsed document *)

Module Soup.

(** What [html.parser] builds: strings and tags with their attributes and
    contents.  Comments and the other special strings are not
    represented. *)
#[warnings="-register-all"]
Inductive node : Type :=
| NavigableString (s : pystr)
| Tag (name : string) (attrs : list (string * pystr)) (contents : list node).

(** One element of the document in document order, with its depth. *)
Inductive element : Type :=
| EString (s : pystr)
| ETag (name : string) (attrs : list (string * pystr)).

(** A place in the document: the element there, followed by everything
    after it in document order ([next_elements]). *)
Definition cursor : Type := list (nat * element).

Fixpoint linearize (depth : nat) (n : node) : cursor :=
  match n with
  | NavigableString s => [(depth, EString s)]
  | Tag name attrs contents =>
      (depth, ETag name attrs) ::
      (fix children (l : list node) : cursor :=
         match l with
         | [] => []
         | c :: r => linearize (S depth) c ++ children r
         end) contents
  end.

Definition soup_elements (soup : list node) : cursor :=
  flat_map (linearize 1) soup.

Definition is_tag (name : string) (e : element) : bool :=
  match e with
  | ETag n _ => String.eqb n name
  | EString _ => false
  end.

(** [tag.find(name)]: the first descendant with that name. *)
Fixpoint find_in (name : string) (depth : nat) (after : cursor) : option cursor :=
  match after with
  | [] => None
  | (d, e) :: r =>
      if Nat.ltb depth d
      then if is_tag name e then Some after else find_in name depth r
      else None
  end.

Definition find (name : string) (c : cursor) : option cursor :=
  match c with
  | (d, _) :: after => find_in name d after
  | [] => None
  end.

(** [tag.find_next(name)]: the first tag with that name anywhere later in
    the document, inside or outside the tag. *)
Fixpoint first_tag (name : string) (after : cursor) : option cursor :=
  match after with
  | [] => None
  | (_, e) :: r => if is_tag name e then Some after else first_tag name r
  end.

Definition find_next (name : string) (c : cursor) : option cursor :=
  match c with
  | _ :: after => first_tag name after
  | [] => None
  end.

(** [tag.find_next_sibling(string=True)]: the first string among the
    later children of the same parent. *)
Fixpoint sibling_string (depth : nat) (after : cursor) : option pystr :=
  match after with
  | [] => None
  | (d, e) :: r =>
      if Nat.ltb depth d then sibling_string depth r
      else if Nat.eqb d depth then
        match e with
        | EString s => Some s
        | ETag _ _ => sibling_string depth r
        end
      else None
  end.

Definition find_next_sibling_string (c : cursor) : option pystr :=
  match c with
  | (d, _) :: after => sibling_string d after
  | [] => None
  end.

(** [tag.text]: the strings below the tag, concatenated. *)
Fixpoint text_in (depth : nat) (after : cursor) : pystr :=
  match after with
  | [] => []
  | (d, e) :: r =>
      if Nat.ltb depth d
      then match e with
           | EString s => s ++ text_in depth r
           | ETag _ _ => text_in depth r
           end
      else []
  end.

Definition text (c : cursor) : pystr :=
  match c with
  | (d, _) :: after => text_in d after
  | [] => []
  end.

Fixpoint assoc {V} (key : string) (l : list (string * V)) : option V :=
  match l with
  | [] => None
  | (k, v) :: r => if String.eqb k key then Some v else assoc key r
  end.

(** [tag[key]] *)
Definition getitem (c : cursor) (key : string) : outcome pystr :=
  match c with
  | (_, ETag _ attrs) :: _ =>
      match assoc key attrs with
      | Some v => Ok v
      | None => Raise (KeyError key)
      end
  | _ => Raise (KeyError key)
  end.

(** [soup.find_all(...)]: every place whose element satisfies [p]. *)
Fixpoint find_all (p : element → bool) (els : cursor) : list cursor :=
  match els with
  | [] => []
  | (_, e) :: r => (if p e then [els] else []) ++ find_all p r
  end.

Definition video_class : pystr :=
  py "content-cell mdl-cell mdl-cell--6-col mdl-typography--body-1".

(** [name == "div"] and the [class_] filter: one of the classes is the
    given text, or the classes joined by single spaces are. *)
Definition is_video_element (e : element) : bool :=
  match e with
  | ETag name attrs =>
      String.eqb name "div" &&
      match assoc "class" attrs with
      | Some v =>
          let classes := words v in
          existsb (PyStr.eqb video_class) classes
          || PyStr.eqb video_class (join (py " ") classes)
      | None => false
      end
  | EString _ => false
  end.

End Soup.
Import Soup.

(** ** The history extractor *)

Module Extractor.

(** [clean_date_time] *)
Definition clean_date_time (date_time : pystr) : pystr :=
  let cleaned_date_time := List.filter (λ char, N.ltb char 128) date_time in
  if contains (py "PM") cleaned_date_time
  then replace (py "PM") (py " PM") cleaned_date_time
  else replace (py "AM") (py " AM") cleaned_date_time.

(** A row of [videos_data]: the dictionary literal, keys in the order they
    are written; a value is [None] or a string. *)
Definition record : Type := list (string * option pystr).

Definition fieldnames : list string :=
  ["title"; "url"; "video_duration"; "channel_name"; "channel_url";
   "date_time"; "video_date_upload"; "video_views"; "video_likes";
   "video_dislikes"; "video_comment_count"; "video_description";
   "video_tags"].

(** The body of the loop over [video_elements]: [None] is the [continue]
    of the drop rule, [Some r] the dictionary appended to [videos_data]. *)
Definition extract_video (video : cursor) : M (list log_record) (option record) :=
  let title_element := find "a" video in
  let title := (λ a, strip (text a)) <$> title_element in
  match title_element, title with
  | Some title_element, Some ((_ :: _) as title) =>
      if watch_url_search title then
        logging Warning_no_title;; mret None
      else
        url ← lift (getitem title_element "href");
        let video_duration := None in
        let video_date_upload := None in
        let video_views := None in
        let video_likes := None in
        let video_dislikes := None in
        let video_comment_count := None in
        let video_description := None in
        let video_tags := None in
        '(channel_name, channel_url, date_time) ←
          match find_next "a" title_element with
          | Some channel_element =>
              let channel_name := strip (text channel_element) in
              channel_url ← lift (getitem channel_element "href");
              match find_next_sibling_string channel_element with
              | Some ((_ :: _) as date_time_element) =>
                  let date_time := strip date_time_element in
                  let cleaned_date_time := clean_date_time date_time in
                  mret (Some channel_name, Some channel_url, Some date_time)
              | _ => mret (Some channel_name, Some channel_url, None)
              end
          | None => mret (None, None, None)
          end;
        mret (Some
          [("title", Some title);
           ("url", Some url);
           ("video_duration", video_duration);
           ("channel_name", channel_name);
           ("channel_url", channel_url);
           ("date_time", date_time);
           ("video_date_upload", video_date_upload);
           ("video_views", video_views);
           ("video_likes", video_likes);
           ("video_dislikes", video_dislikes);
           ("video_comment_count", video_comment_count);
           ("video_description", video_description);
           ("video_tags", video_tags)])
  | _, _ => logging Warning_no_title;; mret None
  end.

(** [for video in video_elements: ...], returning [videos_data]. *)
Fixpoint scan_videos (video_elements : list cursor) : M (list log_record) (list record) :=
  match video_elements with
  | [] => mret []
  | video :: rest =>
      r ← extract_video video;
      videos_data ← scan_videos rest;
      mret (match r with
            | Some d => d :: videos_data
            | None => videos_data
            end)
  end.

(** The csv file as a table of fields: the header line and one line per
    row.  Quoting and line endings are the csv module's and are not
    represented. *)
Record csv_file : Type := { header : list string; rows : list (list pystr) }.

(** [DictWriter.writerow]: a key outside [fieldnames] is refused, a
    missing key and [None] are written as the empty field. *)
Definition writerow (names : list string) (rowdict : record) : outcome (list pystr) :=
  if forallb (λ kv, existsb (String.eqb (fst kv)) names) rowdict
  then Ok ((λ k, match assoc k rowdict with
                 | Some (Some v) => v
                 | _ => []
                 end) <$> names)
  else Raise (ValueError "dict contains fields not in fieldnames").

Fixpoint writerows (names : list string) (data : list record) : outcome (list (list pystr)) :=
  match data with
  | [] => Ok []
  | d :: r =>
      line ← writerow names d;
      lines ← writerows names r;
      mret (line :: lines)
  end.

Definition write_csv (videos_data : list record) : outcome csv_file :=
  lines ← writerows fieldnames videos_data;
  mret {| header := fieldnames; rows := lines |}.

(** [extract_data_from_html], from the parsed document to the file
    written.  An exception raised while scanning leaves the function
    before the output file is opened. *)
Definition extract_data_from_html (soup : list node) : M (list log_record) csv_file :=
  let video_elements := find_all is_video_element (soup_elements soup) in
  videos_data ← scan_videos video_elements;
  lift (write_csv videos_data).

End Extractor.
Import Extractor.

(** ** Durations and timestamps of the service *)

Module Wire.

(** One optional component of a duration, [[0-9]+X]: its value and what
    follows, or zero and the text untouched when it is absent. *)
Definition component (designator : N) (s : pystr) : N * pystr :=
  match span_digits s with
  | (c :: ds, d :: rest) =>
      if N.eqb d designator
      then (default 0%N (parse_digits (c :: ds)), rest)
      else (0%N, s)
  | _ => (0%N, s)
  end.

(** The end of the pattern: the end of the text, or one final newline. *)
Definition at_end (s : pystr) : bool :=
  match s with
  | [] => true
  | [c] => N.eqb c 10
  | _ => false
  end.

Definition timedelta_max_days : Z := 999999999.

(** [isodate.parse_duration(s).total_seconds()] on durations whose
    components are whole numbers:
    [[+-]?P[nY][nM][nW][nD][T[nH][nM][nS]]].  Years and months are kept
    apart from the time span by isodate and do not count in
    [total_seconds].  Components with a decimal fraction and the
    alternative form [PYYYY-MM-DDThh:mm:ss] are not represented: the
    model raises on them. *)
Definition parse_duration_total_seconds (datestring : pystr) : outcome Z :=
  let '(negative, s) :=
    match datestring with
    | 45%N :: r => (true, r)
    | 43%N :: r => (false, r)
    | _ => (false, datestring)
    end in
  match s with
  | 80%N :: s0 =>
      if at_end s0 then Raise ISO8601Error else
      let '(years, s1) := component 89 s0 in
      let '(months, s2) := component 77 s1 in
      let '(weeks, s3) := component 87 s2 in
      let '(days, s4) := component 68 s3 in
      let '(hours, minutes, seconds, s8) :=
        match s4 with
        | 84%N :: s5 =>
            let '(hours, s6) := component 72 s5 in
            let '(minutes, s7) := component 77 s6 in
            let '(seconds, s8) := component 83 s7 in
            (hours, minutes, seconds, s8)
        | _ => (0%N, 0%N, 0%N, s4)
        end in
      if at_end s8 then
        let total :=
          (((Z.of_N weeks * 7 + Z.of_N days) * 24 + Z.of_N hours) * 3600
           + Z.of_N minutes * 60 + Z.of_N seconds)%Z in
        if (timedelta_max_days <? total / 86400)%Z then Raise OverflowError
        else
          let signed := if negative then (- total)%Z else total in
          if (signed / 86400 <? - timedelta_max_days)%Z then Raise OverflowError
          else Ok signed
      else Raise ISO8601Error
  | _ => Raise ISO8601Error
  end.

(** The second half of [clean_duration_time]: hours, minutes and seconds
    of the total, and the formatted string. *)
Definition format_hms (total_seconds : Z) : pystr :=
  let hours := (total_seconds / 3600)%Z in
  let minutes := ((total_seconds mod 3600) / 60)%Z in
  let seconds := (total_seconds mod 60)%Z in
  format_0d 2 hours ++ py ":" ++ format_0d 2 minutes ++ py ":"
  ++ format_0d 2 seconds.

(** [clean_duration_time] *)
Definition clean_duration_time (duration : pystr) : outcome pystr :=
  total_seconds ← parse_duration_total_seconds duration;
  mret (format_hms total_seconds).

(** The fields of a [datetime] that [strftime] prints here. *)
Record datetime : Type := {
  year : N; month : N; day : N; hour : N; minute : N; second : N
}.

Definition is_leap (y : N) : bool :=
  (N.eqb (y mod 4) 0 && negb (N.eqb (y mod 100) 0)) || N.eqb (y mod 400) 0.

Definition days_in_month (y m : N) : N :=
  if N.eqb m 2 then (if is_leap y then 29 else 28)%N
  else if N.eqb m 4 || N.eqb m 6 || N.eqb m 9 || N.eqb m 11 then 30%N
  else 31%N.

(** Exactly [width] digits at the head of [s]. *)
Definition fixed_digits (width : nat) (s : pystr) : option (N * pystr) :=
  if Nat.eqb (length (take width s)) width
  then n ← parse_digits (take width s); Some (n, drop width s)
  else None.

Definition expect (c : N) (s : pystr) : option pystr :=
  match s with
  | d :: r => if N.eqb c d then Some r else None
  | [] => None
  end.

(** The zone designator: [Z] or [+HH:MM] / [-HH:MM], up to the end. *)
Definition tz_ok (s : pystr) : bool :=
  match s with
  | [] => true
  | [90%N] => true
  | sign :: r =>
      (N.eqb sign 43 || N.eqb sign 45) &&
      match (' (h, r1) ← fixed_digits 2 r;
             r2 ← expect 58 r1;
             ' (m, r3) ← fixed_digits 2 r2;
             Some (N.ltb h 24 && N.ltb m 60 && bool_decide (r3 = []))) with
      | Some b => b
      | None => false
      end
  end.

(** A fraction of a second, [.f+] or [,f+], then the zone. *)
Definition fraction_tz_ok (s : pystr) : bool :=
  match s with
  | c :: r =>
      if N.eqb c 46 || N.eqb c 44 then
        match span_digits r with
        | (_ :: _, rest) => tz_ok rest
        | _ => false
        end
      else tz_ok s
  | [] => true
  end.

(** [datetime.fromisoformat] (Python 3.11 and later) on the extended
    form [YYYY-MM-DD], alone or followed by one separator character,
    [HH:MM] or [HH:MM:SS], an optional fraction and an optional zone.
    The basic and week-date forms are not represented: the model raises
    [ValueError] on them.  The fraction and the zone are checked and
    dropped, the format string of [process_datetime] prints neither. *)
Definition fromisoformat (s : pystr) : outcome datetime :=
  let parsed : option datetime :=
    ' (y, r1) ← fixed_digits 4 s;
    r2 ← expect 45 r1;
    ' (mo, r3) ← fixed_digits 2 r2;
    r4 ← expect 45 r3;
    ' (d, r5) ← fixed_digits 2 r4;
    if negb (N.leb 1 y && N.leb 1 mo && N.leb mo 12
             && N.leb 1 d && N.leb d (days_in_month y mo)) then None else
    match r5 with
    | [] => Some {| year := y; month := mo; day := d;
                    hour := 0; minute := 0; second := 0 |}
    | _ :: r6 =>
        ' (h, r7) ← fixed_digits 2 r6;
        r8 ← expect 58 r7;
        ' (mi, r9) ← fixed_digits 2 r8;
        ' (sec, r10) ←
          match expect 58 r9 with
          | Some r => ' (sec, r') ← fixed_digits 2 r;
                      if fraction_tz_ok r' then Some (sec, r') else None
          | None => if tz_ok r9 then Some (0%N, r9) else None
          end;
        if N.ltb h 24 && N.ltb mi 60 && N.ltb sec 60
        then Some {| year := y; month := mo; day := d;
                     hour := h; minute := mi; second := sec |}
        else None
    end in
  match parsed with
  | Some dt => Ok dt
  | None => Raise (ValueError "Invalid isoformat string")
  end.

(** [dt.strftime("%Y-%m-%d %H:%M:%S")], the year on four digits (some C
    libraries do not pad a year below 1000; the statements on upload
    timestamps take years from 1000 on). *)
Definition strftime (dt : datetime) : pystr :=
  zfill 4 (str_N (year dt)) ++ py "-" ++ zfill 2 (str_N (month dt)) ++ py "-"
  ++ zfill 2 (str_N (day dt)) ++ py " " ++ zfill 2 (str_N (hour dt)) ++ py ":"
  ++ zfill 2 (str_N (minute dt)) ++ py ":" ++ zfill 2 (str_N (second dt)).

(** [process_datetime] *)
Definition process_datetime (datetime_str : pystr) : outcome pystr :=
  dt ← fromisoformat datetime_str;
  let formatted_datetime := strftime dt in
  mret formatted_datetime.

(** [int(s)] on a string: surrounding whitespace, an optional sign, ASCII
    digits.  Underscores and other decimal digits are not represented. *)
Definition py_int (s : pystr) : outcome Z :=
  let t := strip s in
  let '(negative, body) :=
    match t with
    | 45%N :: r => (true, r)
    | 43%N :: r => (false, r)
    | _ => (false, t)
    end in
  match parse_digits body with
  | Some n => Ok (if negative then (- Z.of_N n)%Z else Z.of_N n)
  | None => Raise (ValueError "invalid literal for int()")
  end.

End Wire.
Import Wire.

(** ** The metadata enricher *)

Module Enricher.

(** The response of [videos().list(part="snippet,contentDetails,statistics")]:
    the facets of an item and their fields may each be absent; counts
    and timestamps come as strings. *)
Record snippet : Type := {
  publishedAt : option pystr;
  description : option pystr;
  tags : option (list pystr)
}.

Record contentDetails : Type := { duration : option pystr }.

Record statistics : Type := {
  viewCount : option pystr;
  likeCount : option pystr;
  dislikeCount : option pystr;
  commentCount : option pystr
}.

Record item : Type := {
  item_snippet : option snippet;
  item_contentDetails : option contentDetails;
  item_statistics : option statistics
}.

Record response : Type := { items : option (list item) }.

(** The table as pandas holds it between [read_csv] and [to_csv]: the
    column labels in file order and one list of cells per row.  A cell
    is a missing value, a string, an integer, or a whole number held as
    a float (what a count becomes in a [float64] column).  The text of
    the csv file is not represented: neither what [to_csv] writes for a
    cell, nor the types and missing values that [read_csv] infers from
    that text when the file is loaded again. *)
Inductive cell : Type :=
| NaN
| Str (s : pystr)
| Int (z : Z)
| Float (z : Z).

Global Instance cell_eq_dec : EqDecision cell.
Proof. solve_decision. Defined.

Record DataFrame : Type := { columns : list string; data : list (list cell) }.

(** What the enricher acts on: the table in the csv file and the
    logging calls made so far. *)
Record world : Type := { table : DataFrame; logged : list log_record }.

Global Instance world_logger : Logger world := λ r w,
  {| table := table w; logged := logged w ++ [r] |}.

(** [pd.read_csv(youtube_data)] and [df.to_csv(youtube_data, index=False)]:
    the table written is the table read next, cell by cell.  pandas
    goes through the text of the file and infers the types again on
    every load; statements that compare the cells of two loads depend
    on this simplification, statements on which cells an update touches
    do not. *)
Definition read_csv : M world DataFrame := λ w, (Ok (table w), w).
Definition to_csv (df : DataFrame) : M world () :=
  λ w, (Ok (), {| table := df; logged := logged w |}).

Definition watch_prefix : pystr := py "https://www.youtube.com/watch?v=".

(** [extract_video_id]; [video_url] is [None] or a string. *)
Definition extract_video_id (video_url : option pystr) : M world (option pystr) :=
  match video_url with
  | Some ((_ :: _) as url) =>
      if contains watch_prefix url
      then mret (Some (replace watch_prefix [] url))
      else logging (Warning_invalid_url video_url);; mret None
  | _ => logging (Warning_invalid_url video_url);; mret None
  end.

(** The position of a label among the columns. *)
Fixpoint get_loc (label : string) (cols : list string) : outcome nat :=
  match cols with
  | [] => Raise (KeyError label)
  | c :: r => if String.eqb c label then Ok O else S <$> get_loc label r
  end.

(** [df[label] == value]: one truth value per row; a missing value or a
    number is not equal to a string. *)
Definition series_eq (df : DataFrame) (label : string) (value : pystr) : outcome (list bool) :=
  i ← get_loc label (columns df);
  mret ((λ row, match row !! i with
                | Some (Str s) => PyStr.eqb s value
                | _ => false
                end) <$> data df).

(** One row after the assignment of [values] to the cells at [locs]. *)
Fixpoint set_cells (locs : list nat) (values : list cell) (row : list cell) : list cell :=
  match locs, values with
  | i :: locs', v :: values' => set_cells locs' values' (<[i := v]> row)
  | _, _ => row
  end.

Fixpoint get_locs (labels : list string) (cols : list string) : outcome (list nat) :=
  match labels with
  | [] => Ok []
  | l :: r =>
      i ← get_loc l cols;
      locs ← get_locs r cols;
      mret (i :: locs)
  end.

(** The cells under the column at position [i]; a row shorter than the
    header has missing values at its end. *)
Definition column_cells (df : DataFrame) (i : nat) : list cell :=
  (λ row, default NaN (row !! i)) <$> data df.

(** How pandas stores a value assigned to some rows of a column.  A
    column has one dtype, so the cell that the selected rows hold
    afterwards depends on the column and on the version of pandas: a
    count assigned to a column with missing values is held as a float,
    and a string assigned to a column that holds no string (all its
    cells missing, as in a table fresh from the extractor) widens the
    column under pandas 2 and raises [TypeError] under pandas 3.  The
    model takes this as a parameter: [astype column mask value] is the
    cell stored in the rows that [mask] selects, or the exception
    raised, given the cells of the column before the assignment. *)
Definition cast : Type := list cell → list bool → cell → outcome cell.

(** The values as the columns at [locs] store them, column by column;
    the first cast that raises ends the assignment. *)
Fixpoint cast_values (astype : cast) (df : DataFrame) (mask : list bool)
    (locs : list nat) (values : list cell) : outcome (list cell) :=
  match locs, values with
  | i :: locs', v :: values' =>
      stored ← astype (column_cells df i) mask v;
      rest ← cast_values astype df mask locs' values';
      mret (stored :: rest)
  | _, _ => Ok []
  end.

(** [df.loc[mask, labels] = values]: in every row selected by the mask,
    the cells under the labels take the values, each as its column
    stores it; the rows that the mask does not select are kept.  A
    label that is not a column raises here; every table written by the
    extractor has all of them. *)
Definition loc_setitem (astype : cast) (df : DataFrame) (mask : list bool)
    (labels : list string) (values : list cell) : outcome DataFrame :=
  locs ← get_locs labels (columns df);
  stored ← cast_values astype df mask locs values;
  mret {| columns := columns df;
          data := zip_with (λ (selected : bool) row,
                              if selected then set_cells locs stored row else row)
                           mask (data df) |}.

Definition metadata_columns : list string :=
  ["video_date_upload"; "video_views"; "video_likes"; "video_dislikes";
   "video_comment_count"; "video_description"; "video_tags"; "video_duration"].

(** [int(video_stats.get(key, 0))] *)
Definition int_or_zero (field : option pystr) : outcome Z :=
  match field with
  | Some s => py_int s
  | None => Ok 0%Z
  end.

Definition empty_statistics : statistics :=
  {| viewCount := None; likeCount := None; dislikeCount := None;
     commentCount := None |}.

(** The tuple on the right of the assignment, its components evaluated
    from left to right. *)
Definition field_mapping (video_info : snippet) (video_content_details : contentDetails)
    (video_stats : statistics) : outcome (list cell) :=
  video_date_upload ← process_datetime (default [] (publishedAt video_info));
  video_views ← int_or_zero (viewCount video_stats);
  video_likes ← int_or_zero (likeCount video_stats);
  video_dislikes ← int_or_zero (dislikeCount video_stats);
  video_comment_count ← int_or_zero (commentCount video_stats);
  let video_description := default [] (description video_info) in
  let video_tags := join (py ",") (default [] (tags video_info)) in
  video_duration ← clean_duration_time (default [] (duration video_content_details));
  mret [Str video_date_upload; Int video_views; Int video_likes;
        Int video_dislikes; Int video_comment_count; Str video_description;
        Str video_tags; Str video_duration].

(** [d[key]] on a facet of the response. *)
Definition facet {A} (key : string) (f : option A) : outcome A :=
  match f with
  | Some a => Ok a
  | None => Raise (KeyError key)
  end.

Section Batch.

(** The service: what [youtube.videos().list(..., id=video_id).execute()]
    returns or raises. *)
Variable youtube : pystr → outcome response.

(** How the installed pandas stores an assigned value. *)
Variable astype : cast.

(** The body of the [try] statement. *)
Definition lookup_and_update (video_url video_id : pystr) : M world () :=
  video_response ← lift (youtube video_id);
  match items video_response with
  | Some (first :: _) =>
      video_info ← lift (facet "snippet" (item_snippet first));
      video_content_details ← lift (facet "contentDetails" (item_contentDetails first));
      let video_stats := default empty_statistics (item_statistics first) in
      df ← read_csv;
      values ← lift (field_mapping video_info video_content_details video_stats);
      mask ← lift (series_eq df "url" video_url);
      df ← lift (loc_setitem astype df mask metadata_columns values);
      to_csv df
  | _ => logging (Warning_no_items video_id)
  end.

(** The body of the loop over the rows the csv reader yields.  A row is
    the dictionary [DictReader] builds: a field is [None] when the line
    is shorter than the header.  The print to standard output is not
    represented. *)
Definition process_row (row : list (string * option pystr)) : M world () :=
  video_url ← lift (facet "url" (assoc "url" row));
  match video_url with
  | Some u => logging (Debug_processing u)
  | None => logging Warning_none_url
  end;;
  video_id ← extract_video_id video_url;
  match video_url, video_id with
  | Some video_url, Some ((_ :: _) as video_id) =>
      try_except (lookup_and_update video_url video_id)
                 (λ e, logging (Warning_error video_id e))
  | _, _ => logging (Warning_failed_extract video_url)
  end.

(** [extract_data_from_api]: the loop over the rows read.  The rows are
    what the csv reader yields; the updates go to the same file through
    pandas while the reader is open, so the rows read need not be the
    rows of the table, and the model takes them as an input of their
    own. *)
Fixpoint extract_data_from_api (reader : list (list (string * option pystr))) : M world () :=
  match reader with
  | [] => mret ()
  | row :: rest => process_row row;; extract_data_from_api rest
  end.

End Batch.

End Enricher.
Import Enricher.

(** ** Reference definitions for the statements *)

Module Reference.

(** The reading of a rendered duration that the round-trip property
    names: three fields separated by colons, taken as
    [hours * 3600 + minutes * 60 + seconds]. *)
Definition parse_hms (s : pystr) : option Z :=
  match split 58 s with
  | [h; m; sec] =>
      h ← parse_digits h;
      m ← parse_digits m;
      sec ← parse_digits sec;
      Some (Z.of_N h * 3600 + Z.of_N m * 60 + Z.of_N sec)%Z
  | _ => None
  end.

(** A number below one hundred on exactly two digits. *)
Definition two_digits (k : Z) : pystr :=
  [(48 + Z.to_N (k / 10))%N; (48 + Z.to_N (k mod 10))%N].

(** A duration as its text writes it: every component may be left
    out, and so may the time part that [T] opens. *)
Record period : Type := {
  years : option N;
  months : option N;
  weeks : option N;
  days : option N;
  time : option (option N * option N * option N)
}.

(** One component: its digits and its designator, or nothing. *)
Definition component_text (designator : N) (n : option N) : pystr :=
  match n with
  | Some k => str_N k ++ [designator]
  | None => []
  end.

(** The time part: [T], then the hours [H], minutes [M] and seconds
    [S] that are written. *)
Definition time_text (t : option (option N * option N * option N)) : pystr :=
  match t with
  | Some (h, m, s) =>
      py "T" ++ component_text 72 h ++ component_text 77 m ++ component_text 83 s
  | None => []
  end.

(** The text of a duration: [P], the years [Y], months [M], weeks [W]
    and days [D] that are written, then the time part: [PT1H2M3S],
    [PT15M25S], [P1DT2H], [P2W], ... *)
Definition period_text (p : period) : pystr :=
  py "P" ++ component_text 89 (years p) ++ component_text 77 (months p)
  ++ component_text 87 (weeks p) ++ component_text 68 (days p)
  ++ time_text (time p).

(** The seconds of a duration: weeks, days, hours, minutes and seconds
    summed up, a component left out counting for nothing.  Years and
    months are not part of [total_seconds]. *)
Definition period_seconds (p : period) : Z :=
  let '(h, m, s) := default (None, None, None) (time p) in
  (((Z.of_N (default 0%N (weeks p)) * 7 + Z.of_N (default 0%N (days p))) * 24
    + Z.of_N (default 0%N h)) * 3600
   + Z.of_N (default 0%N m) * 60 + Z.of_N (default 0%N s))%Z.

(** The date and the time of day in the extended ISO 8601 form. *)
Definition iso_date (y mo d : N) : pystr :=
  zfill 4 (str_N y) ++ py "-" ++ zfill 2 (str_N mo) ++ py "-" ++ zfill 2 (str_N d).

Definition iso_time (h mi s : N) : pystr :=
  zfill 2 (str_N h) ++ py ":" ++ zfill 2 (str_N mi) ++ py ":" ++ zfill 2 (str_N s).

(** The wire form of an upload timestamp: [YYYY-MM-DDTHH:MM:SSZ]. *)
Definition wire_timestamp (y mo d h mi s : N) : pystr :=
  iso_date y mo d ++ py "T" ++ iso_time h mi s ++ py "Z".

(** The drop rule in the words of the specification: the first link
    gives no title text, or the title text holds a watch URL. *)
Definition drop_rule (video : cursor) : bool :=
  match find "a" video with
  | None => true
  | Some title_element =>
      match strip (text title_element) with
      | [] => true
      | title => watch_url_search title
      end
  end.

(** A field of a record that holds a string rather than [None]. *)
Definition populated (key : string) (r : record) : Prop :=
  ∃ v, assoc key r = Some (Some v).

(** The raw text after a channel link: the locale puts a narrow no-break
    space (U+202F) before the marker. *)
Definition raw_watch_time : pystr :=
  py "Nov 13, 2023, 6:06:22" ++ [8239%N] ++ py "PM PST".

Definition video_attrs : list (string * pystr) := [("class", video_class)].

(** One entry of a watch history: title link, channel link, time. *)
Definition history_entry : node :=
  Tag "div" video_attrs
    [NavigableString (py "Watched ");
     Tag "a" [("href", py "https://www.youtube.com/watch?v=dQw4w9WgXcQ")]
       [NavigableString (py "A video")];
     Tag "br" [] [];
     Tag "a" [("href", py "https://www.youtube.com/channel/UC123")]
       [NavigableString (py "A channel")];
     Tag "br" [] [];
     NavigableString raw_watch_time].

(** An entry whose only link is the title link, last in the document. *)
Definition lone_title_entry : node :=
  Tag "div" video_attrs
    [NavigableString (py "Watched ");
     Tag "a" [("href", py "https://www.youtube.com/watch?v=dQw4w9WgXcQ")]
       [NavigableString (py "A video")]].

(** An entry whose title text is the watch URL itself. *)
Definition url_title_entry : node :=
  Tag "div" video_attrs
    [NavigableString (py "Watched ");
     Tag "a" [("href", py "https://www.youtube.com/watch?v=dQw4w9WgXcQ")]
       [NavigableString (py "https://www.youtube.com/watch?v=dQw4w9WgXcQ")]].

(** A computation of the error monad that returns. *)
Definition returns {A} (o : outcome A) : Prop := ∃ a, o = Ok a.

(** The three things one pass of the loop body of the extractor can do
    with a container: drop it with a warning, stop on a link without
    [href], or emit one record. *)
Inductive extract_video_result (video : cursor) (l : list log_record) :
    outcome (option record) * list log_record → Prop :=
| video_dropped :
    drop_rule video = true →
    extract_video_result video l (Ok None, l ++ [Warning_no_title])
| video_href_missing title_element :
    drop_rule video = false →
    find "a" video = Some title_element →
    getitem title_element "href" = Raise (KeyError "href")
    ∨ (∃ channel_element,
         find_next "a" title_element = Some channel_element ∧
         getitem channel_element "href" = Raise (KeyError "href")) →
    extract_video_result video l (Raise (KeyError "href"), l)
| video_emitted title_element url channel :
    drop_rule video = false →
    find "a" video = Some title_element →
    getitem title_element "href" = Ok url →
    match find_next "a" title_element with
    | None => channel = (None, None, None)
    | Some channel_element =>
        ∃ channel_url, getitem channel_element "href" = Ok channel_url ∧
        channel = (Some (strip (text channel_element)), Some channel_url,
                   match find_next_sibling_string channel_element with
                   | Some ((_ :: _) as s) => Some (strip s)
                   | _ => None
                   end)
    end →
    extract_video_result video l
      (Ok (Some
         [("title", Some (strip (text title_element)));
          ("url", Some url);
          ("video_duration", None);
          ("channel_name", channel.1.1);
          ("channel_url", channel.1.2);
          ("date_time", channel.2);
          ("video_date_upload", None);
          ("video_views", None);
          ("video_likes", None);
          ("video_dislikes", None);
          ("video_comment_count", None);
          ("video_description", None);
          ("video_tags", None)]), l).


(** The logging call that opens the processing of a row. *)
Definition row_event (r : log_record) : bool :=
  match r with
  | Debug_processing _ | Warning_none_url => true
  | _ => false
  end.

Definition row_start (row : list (string * option pystr)) : log_record :=
  match assoc "url" row with
  | Some (Some u) => Debug_processing u
  | _ => Warning_none_url
  end.


(** A table, a reader and a service to run the enricher on: one video
    watched twice, one whose lookup fails, one row without a watch URL. *)
Definition watch_url (video_id : string) : pystr := watch_prefix ++ py video_id.

Definition fresh_row (title : string) (url : pystr) : list cell :=
  [Str (py title); Str url; NaN; Str (py "A channel");
   Str (py "https://www.youtube.com/channel/UC123"); Str (py "Nov 13, 2023");
   NaN; NaN; NaN; NaN; NaN; NaN; NaN].

Definition sample_table : DataFrame :=
  {| columns := fieldnames;
     data := [fresh_row "A video" (watch_url "dQw4w9WgXcQ");
              fresh_row "Gone" (watch_url "removed0000");
              fresh_row "A video" (watch_url "dQw4w9WgXcQ");
              fresh_row "Short link" (py "https://youtu.be/dQw4w9WgXcQ")] |}.

Definition sample_world : world := {| table := sample_table; logged := [] |}.

Definition reader_row (url : pystr) : list (string * option pystr) :=
  [("title", Some (py "A video")); ("url", Some url)].

Definition sample_reader : list (list (string * option pystr)) :=
  [reader_row (watch_url "removed0000");
   reader_row (py "https://youtu.be/dQw4w9WgXcQ");
   reader_row (watch_url "dQw4w9WgXcQ")].

Definition sample_item : item :=
  {| item_snippet := Some {| publishedAt := Some (py "2009-10-25T06:57:33Z");
                             description := Some (py "A description");
                             tags := Some [py "music"; py "video"] |};
     item_contentDetails := Some {| duration := Some (py "PT3M33S") |};
     item_statistics := Some {| viewCount := Some (py "1500");
                                likeCount := Some (py "17");
                                dislikeCount := None;
                                commentCount := Some (py "2") |} |}.

Definition sample_youtube (video_id : pystr) : outcome response :=
  if PyStr.eqb video_id (py "dQw4w9WgXcQ") then Ok {| items := Some [sample_item] |}
  else Raise (ServiceError 403).

(** A column that stores what is assigned to it: what pandas does when
    the dtype of the column fits the value, a string in a column of
    strings, a count in a column of integers. *)
Definition keep_value : cast := λ _ _ value, Ok value.

Definition is_str (c : cell) : bool :=
  match c with
  | Str _ => true
  | _ => false
  end.

Definition is_int (c : cell) : bool :=
  match c with
  | Int _ => true
  | _ => false
  end.

(** A column that is widened when its dtype does not take the value,
    in the way of pandas 2: a string is stored as it is in any column,
    and a count is stored as a float in a column of numbers that is not
    made of integers only, as the empty metadata columns of a table
    fresh from the extractor are. *)
Definition widening : cast := λ column _ value,
  match value with
  | Int z =>
      if existsb is_str column || forallb is_int column then Ok (Int z)
      else Ok (Float z)
  | _ => Ok value
  end.

(** A column that refuses a string when it holds none, as pandas 3 does
    on the empty metadata columns of a table fresh from the extractor. *)
Definition refusing : cast := λ column _ value,
  match value with
  | Str _ =>
      if existsb is_str column then Ok value
      else Raise (TypeError "Invalid value for dtype")
  | _ => Ok value
  end.

(** A table that an earlier pass has enriched: every metadata column
    holds strings or integers, so that an assignment fits its dtype. *)
Definition enriched_row (title : string) (url : pystr) : list cell :=
  [Str (py title); Str url; Str (py "00:03:33"); Str (py "A channel");
   Str (py "https://www.youtube.com/channel/UC123"); Str (py "Nov 13, 2023");
   Str (py "2009-10-25 06:57:33"); Int 1200; Int 15; Int 0; Int 1;
   Str (py "An older description"); Str (py "music")].

Definition enriched_table : DataFrame :=
  {| columns := fieldnames;
     data := [enriched_row "A video" (watch_url "dQw4w9WgXcQ");
              enriched_row "Gone" (watch_url "removed0000");
              enriched_row "A video" (watch_url "dQw4w9WgXcQ");
              enriched_row "Short link" (py "https://youtu.be/dQw4w9WgXcQ")] |}.

Definition enriched_world : world := {| table := enriched_table; logged := [] |}.

End Reference.
Import Reference.

(** Unfolds the plumbing of the monads in the goal. *)
Ltac run :=
  cbv [mbind M_bind mret M_ret lift logging add_record list_logger
       outcome_bind outcome_ret].

Ltac run_world :=
  cbv [mbind M_bind mret M_ret lift logging add_record world_logger
       try_except facet].

(** ** Further definitions for the statements on the rest of the code *)

Module Further.

(** Every link of the document carries an [href]. *)
Definition links_have_href (c : cursor) : bool :=
  forallb (λ de : nat * element,
             match de.2 with
             | ETag name attrs =>
                 negb (String.eqb name "a") || bool_decide (is_Some (assoc "href" attrs))
             | EString _ => true
             end) c.

(** The shape of a line the extractor writes: title, url, an empty
    duration, channel name and url, watch time, seven empty cells. *)
Definition extractor_line (title url channel_name channel_url date_time : pystr)
    : list pystr :=
  [title; url; []; channel_name; channel_url; date_time; []; []; []; []; []; []; []].

Definition line_shape (line : list pystr) : Prop :=
  ∃ title url channel_name channel_url date_time,
    line = extractor_line title url channel_name channel_url date_time ∧
    title ≠ [] ∧ watch_url_search title = false.

(** A history entry that holds nothing but its title link. *)
Definition lone_entry (title href : pystr) : node :=
  Tag "div" video_attrs [Tag "a" [("href", href)] [NavigableString title]].

(** The text of a watch URL as the pattern of the drop rule reads it:
    scheme, optional [www.], host and path, then the identifier. *)
Definition watch_url_text (secure www : bool) : pystr :=
  py "http" ++ (if secure then py "s" else []) ++ py "://"
  ++ (if www then py "www." else []) ++ py "youtube.com/watch?v=".

Definition is_ascii (s : pystr) : bool := forallb (λ c, N.ltb c 128) s.

(** A zone offset in the extended form, [+HH:MM] or [-HH:MM]. *)
Definition offset_text (east : bool) (h m : N) : pystr :=
  (if east then py "+" else py "-") ++ zfill 2 (str_N h) ++ py ":"
  ++ zfill 2 (str_N m).

(** The statistics of a response with the dislike count left out. *)
Definition without_dislikes (stats : statistics) : statistics :=
  {| viewCount := viewCount stats; likeCount := likeCount stats;
     dislikeCount := None; commentCount := commentCount stats |}.

(** A service that answers with an item without facets, and one that
    answers with no item. *)
Definition bare_youtube (video_id : pystr) : outcome response :=
  Ok {| items := Some [{| item_snippet := None; item_contentDetails := None;
                          item_statistics := None |}] |}.

Definition silent_youtube (video_id : pystr) : outcome response :=
  Ok {| items := Some [] |}.

End Further.
Import Further.

(* ===================================================================== *)
(** * Part II: properties                                                 *)
(* ===================================================================== *)

(** ** Decimal numerals: printing then reading *)

Section NumeralFacts.
Local Open Scope N_scope.

Lemma is_digit_char (d : N) : d < 10 → is_digit (48 + d) = true.
Proof.
  intros Hd. unfold is_digit.
  apply andb_true_intro; split; apply N.leb_le; lia.
Qed.

Lemma digits_value_app (a b : pystr) (acc : N) :
  digits_value acc (a ++ b) = digits_value acc a ≫= λ v, digits_value v b.
Proof.
  revert acc. induction a as [|c a IH]; intros acc; simpl; [done|].
  destruct (is_digit c); [apply IH | done].
Qed.

Lemma digits_value_digit (acc d : N) :
  d < 10 → digits_value acc [48 + d] = Some (acc * 10 + d).
Proof.
  intros Hd. simpl. rewrite is_digit_char by done.
  f_equal. lia.
Qed.

Lemma digits_of_value (fuel : nat) (n : N) :
  n < 2 ^ N.of_nat fuel → digits_value 0 (digits_of fuel n) = Some n.
Proof.
  revert n. induction fuel as [|f IH]; intros n Hn.
  - simpl in *. f_equal. lia.
  - cbn [digits_of]. destruct (N.ltb_spec n 10) as [Hlt|Hge].
    + rewrite digits_value_digit by done. f_equal.
    + rewrite digits_value_app, IH.
      * cbn [mbind option_bind]. rewrite digits_value_digit.
        -- f_equal. pose proof (N.div_mod n 10). lia.
        -- apply N.mod_lt. lia.
      * rewrite Nat2N.inj_succ, N.pow_succ_r' in Hn.
        apply N.Div0.div_lt_upper_bound. lia.
Qed.

Lemma digits_of_nonempty (fuel : nat) (n : N) : digits_of (S fuel) n ≠ [].
Proof.
  cbn [digits_of]. destruct (N.ltb n 10); [done|].
  intros H. by apply app_eq_nil in H as [_ ?].
Qed.

Lemma digits_of_all_digits (fuel : nat) (n : N) :
  forallb is_digit (digits_of fuel n) = true.
Proof.
  revert n. induction fuel as [|f IH]; intros n; [done|].
  cbn [digits_of]. destruct (N.ltb_spec n 10) as [Hlt|Hge].
  - simpl. by rewrite is_digit_char.
  - rewrite forallb_app, IH. simpl. rewrite is_digit_char; [done|].
    apply N.mod_lt. lia.
Qed.

Lemma digits_of_length (fuel k : nat) (n : N) :
  n < 10 ^ N.of_nat (S k) → (length (digits_of fuel n) ≤ S k)%nat.
Proof.
  revert n k. induction fuel as [|f IH]; intros n k Hn; [simpl; lia|].
  cbn [digits_of]. destruct (N.ltb_spec n 10) as [Hlt|Hge]; [simpl; lia|].
  rewrite length_app. simpl.
  destruct k as [|k].
  - simpl in Hn. lia.
  - specialize (IH (n / 10) k). 
    rewrite (Nat2N.inj_succ (S k)), N.pow_succ_r' in Hn.
    assert (n / 10 < 10 ^ N.of_nat (S k)) by (apply N.Div0.div_lt_upper_bound; lia).
    specialize (IH H). lia.
Qed.

Lemma str_N_value (n : N) : parse_digits (str_N n) = Some n.
Proof.
  unfold str_N, parse_digits.
  destruct (digits_of _ n) eqn:E; [by apply digits_of_nonempty in E|].
  rewrite <- E. apply digits_of_value.
  rewrite Nat2N.inj_succ, N2Nat.id, N.pow_succ_r'.
  pose proof (N.size_gt n). lia.
Qed.

Lemma str_N_digits (n : N) : forallb is_digit (str_N n) = true.
Proof. apply digits_of_all_digits. Qed.

Lemma str_N_nonempty (n : N) : str_N n ≠ [].
Proof. apply digits_of_nonempty. Qed.

Lemma str_N_length (k : nat) (n : N) :
  n < 10 ^ N.of_nat (S k) → (1 ≤ length (str_N n) ≤ S k)%nat.
Proof.
  intros Hn. split; [|by apply digits_of_length].
  pose proof (str_N_nonempty n). destruct (str_N n); simpl; [done|lia].
Qed.

Lemma digits_value_zeros (k : nat) (s : pystr) :
  digits_value 0 (repeat 48 k ++ s) = digits_value 0 s.
Proof. induction k as [|k IH]; [done|]. simpl. apply IH. Qed.

Lemma zfill_value (width : nat) (n : N) :
  parse_digits (zfill width (str_N n)) = Some n.
Proof.
  unfold zfill, parse_digits.
  destruct (repeat _ _ ++ _) eqn:E.
  - apply app_eq_nil in E as [_ E]. by apply str_N_nonempty in E.
  - rewrite <- E, digits_value_zeros.
    pose proof (str_N_value n) as Hv. unfold parse_digits in Hv.
    destruct (str_N n); [done|exact Hv].
Qed.

Lemma zfill_length (width : nat) (n : N) :
  n < 10 ^ N.of_nat (S width) → length (zfill (S width) (str_N n)) = S width.
Proof.
  intros Hn. unfold zfill. rewrite length_app, repeat_length.
  pose proof (str_N_length width n Hn). lia.
Qed.

Lemma zfill_digits (width : nat) (n : N) :
  forallb is_digit (zfill width (str_N n)) = true.
Proof.
  unfold zfill. rewrite forallb_app, str_N_digits, andb_true_r.
  induction (width - _)%nat; [done|]. simpl. exact IHn0.
Qed.

End NumeralFacts.

(** ** The rendering of durations *)

Section DurationFacts.
Local Open Scope Z_scope.

Lemma format_0d_nonneg (width : nat) (z : Z) :
  0 ≤ z → format_0d width z = zfill width (str_N (Z.to_N z)).
Proof.
  intros Hz. unfold format_0d.
  destruct (Z.ltb_spec z 0); [lia|done].
Qed.

Lemma format_0d_two_digits (k : Z) :
  0 ≤ k < 100 → format_0d 2 k = two_digits k.
Proof.
  intros Hk.
  assert (Hall : Forall (λ k, format_0d 2 k = two_digits k) (seqZ 0 100)).
  { apply (bool_decide_unpack _). vm_compute. reflexivity. }
  rewrite Forall_forall in Hall. apply Hall, elem_of_seqZ. lia.
Qed.

Lemma digit_not_colon (s : pystr) :
  forallb is_digit s = true → forallb (λ c, negb (N.eqb c 58)) s = true.
Proof.
  induction s as [|c s IH]; [done|]. simpl.
  intros [Hc Hs]%andb_prop. rewrite IH by done.
  unfold is_digit in Hc. apply andb_prop in Hc as [_ Hc%N.leb_le].
  destruct (N.eqb_spec c 58); [lia|done].
Qed.

Lemma split_go_last (sep : N) (cur a : pystr) :
  forallb (λ c, negb (N.eqb c sep)) a = true →
  split_go sep cur a = [rev cur ++ a].
Proof.
  revert cur. induction a as [|c a IH]; intros cur; simpl.
  - by rewrite app_nil_r.
  - intros [Hc Ha]%andb_prop. apply negb_true_iff in Hc. rewrite Hc.
    rewrite IH by done. simpl. by rewrite <- app_assoc.
Qed.

Lemma split_go_field (sep : N) (cur a b : pystr) :
  forallb (λ c, negb (N.eqb c sep)) a = true →
  split_go sep cur (a ++ sep :: b) = (rev cur ++ a) :: split_go sep [] b.
Proof.
  revert cur. induction a as [|c a IH]; intros cur; simpl.
  - intros _. by rewrite N.eqb_refl, app_nil_r.
  - intros [Hc Ha]%andb_prop. apply negb_true_iff in Hc. rewrite Hc.
    rewrite IH by done. simpl. by rewrite <- app_assoc.
Qed.

Lemma parse_hms_fields (h m s : N) :
  parse_hms (zfill 2 (str_N h) ++ py ":" ++ zfill 2 (str_N m) ++ py ":"
             ++ zfill 2 (str_N s))
  = Some (Z.of_N h * 3600 + Z.of_N m * 60 + Z.of_N s).
Proof.
  unfold parse_hms, split. change (py ":") with [58%N]. simpl app.
  rewrite split_go_field by apply digit_not_colon, zfill_digits.
  rewrite split_go_field by apply digit_not_colon, zfill_digits.
  rewrite split_go_last by apply digit_not_colon, zfill_digits.
  simpl rev. rewrite !app_nil_l, !zfill_value. reflexivity.
Qed.

Lemma format_hms_nonneg (n : Z) :
  0 ≤ n →
  format_hms n =
    zfill 2 (str_N (Z.to_N (n / 3600))) ++ py ":"
    ++ zfill 2 (str_N (Z.to_N ((n mod 3600) / 60))) ++ py ":"
    ++ zfill 2 (str_N (Z.to_N (n mod 60))).
Proof.
  intros Hn. unfold format_hms.
  rewrite !format_0d_nonneg; [done| | |].
  - apply Z.mod_pos_bound. lia.
  - apply Z.div_pos; [|lia]. apply Z.mod_pos_bound. lia.
  - apply Z.div_pos; lia.
Qed.

End DurationFacts.


Section DurationParsing.
Local Open Scope Z_scope.

Lemma span_digits_run (a : pystr) (x : N) (r : pystr) :
  forallb is_digit a = true → is_digit x = false →
  span_digits (a ++ x :: r) = (a, x :: r).
Proof.
  intros Ha Hx. induction a as [|c a IH]; simpl.
  - by rewrite Hx.
  - simpl in Ha. apply andb_prop in Ha as [Hc Ha].
    by rewrite Hc, IH.
Qed.

Lemma component_present (designator n : N) (r : pystr) :
  is_digit designator = false →
  component designator (str_N n ++ designator :: r) = (n, r).
Proof.
  intros Hd. unfold component.
  rewrite span_digits_run by (done || apply str_N_digits).
  pose proof (str_N_value n) as Hv.
  destruct (str_N n) as [|c ds] eqn:E; [by apply str_N_nonempty in E|].
  by rewrite N.eqb_refl, Hv.
Qed.

Lemma component_absent (designator other n : N) (r : pystr) :
  is_digit other = false → other ≠ designator →
  component designator (str_N n ++ other :: r) = (0%N, str_N n ++ other :: r).
Proof.
  intros Hd Hne. unfold component.
  rewrite span_digits_run by (done || apply str_N_digits).
  destruct (str_N n) as [|c ds] eqn:E; [done|].
  destruct (N.eqb_spec other designator); done.
Qed.

Lemma at_end_component (n x : N) (r : pystr) :
  at_end (str_N n ++ x :: r) = false.
Proof.
  destruct (str_N n) as [|c ds] eqn:E; [by apply str_N_nonempty in E|].
  simpl. by destruct ds.
Qed.

Lemma component_time (designator : N) (t : option (option N * option N * option N)) :
  component designator (time_text t) = (0%N, time_text t).
Proof. by destruct t as [[[h m] s]|]. Qed.

(** A component that is written is read, and one that is left out
    reads as zero, when what follows is not a component of its kind. *)
Lemma component_read (designator : N) (n : option N) (r : pystr) :
  is_digit designator = false →
  component designator r = (0%N, r) →
  component designator (component_text designator n ++ r) = (default 0%N n, r).
Proof.
  intros Hd Hr. destruct n as [n|]; [|done].
  unfold component_text. rewrite <- app_assoc. by apply component_present.
Qed.

Lemma component_read_last (designator : N) (n : option N) :
  is_digit designator = false →
  component designator (component_text designator n) = (default 0%N n, []).
Proof.
  intros Hd. rewrite <- (app_nil_r (component_text designator n)).
  by apply component_read.
Qed.

(** The component of another kind is passed over. *)
Lemma component_skip (designator other : N) (n : option N) (r : pystr) :
  is_digit other = false → other ≠ designator →
  component designator r = (0%N, r) →
  component designator (component_text other n ++ r)
  = (0%N, component_text other n ++ r).
Proof.
  intros Hd Hne Hr. destruct n as [n|]; [|done].
  unfold component_text. rewrite <- app_assoc. by apply component_absent.
Qed.

Lemma component_skip_last (designator other : N) (n : option N) :
  is_digit other = false → other ≠ designator →
  component designator (component_text other n) = (0%N, component_text other n).
Proof.
  intros Hd Hne. rewrite <- (app_nil_r (component_text other n)).
  by apply component_skip.
Qed.

Lemma at_end_written (designator : N) (n : N) (r : pystr) :
  at_end (component_text designator (Some n) ++ r) = false.
Proof. unfold component_text. rewrite <- app_assoc. apply at_end_component. Qed.

(** Something follows the [P] unless every component and the time part
    are left out. *)
Lemma at_end_period (p : period) :
  period_text p ≠ py "P" →
  at_end (component_text 89 (years p) ++ component_text 77 (months p)
          ++ component_text 87 (weeks p) ++ component_text 68 (days p)
          ++ time_text (time p)) = false.
Proof.
  destruct p as [y mo w d t]. unfold period_text. cbn [years months weeks days time].
  destruct y as [y|]; [intros _; apply at_end_written|].
  destruct mo as [mo|]; [intros _; apply at_end_written|].
  destruct w as [w|]; [intros _; apply at_end_written|].
  destruct d as [d|]; [intros _; apply at_end_written|].
  destruct t as [[[h m] s]|]; [intros _|done].
  cbn [component_text app time_text]. change (py "T") with [84%N]. cbn [app at_end].
  by destruct (component_text 72 h ++ component_text 77 m ++ component_text 83 s).
Qed.

(** The parser on the text of a duration, with or without a sign: the
    total of its weeks, days, hours, minutes and seconds, negated after
    a minus sign. *)
Lemma parse_period_text (sign : pystr) (p : period) :
  sign = [] ∨ sign = py "+" ∨ sign = py "-" →
  period_text p ≠ py "P" →
  period_seconds p ≤ 86400 * timedelta_max_days →
  parse_duration_total_seconds (sign ++ period_text p)
  = Ok (if bool_decide (sign = py "-") then - period_seconds p else period_seconds p).
Proof.
  intros Hsign Hwritten Hmax.
  assert (Hparse :
    parse_duration_total_seconds (sign ++ period_text p)
    = (let total := period_seconds p in
       if timedelta_max_days <? total / 86400 then Raise OverflowError
       else
         let signed := if bool_decide (sign = py "-") then - total else total in
         if signed / 86400 <? - timedelta_max_days then Raise OverflowError
         else Ok signed)).
  { pose proof (at_end_period p Hwritten) as Hend. clear Hwritten Hmax.
    destruct p as [y mo w d t]. cbn [years months weeks days time] in Hend.
    assert (Hbody : ∀ negative : bool,
      (let s0 := component_text 89 y ++ component_text 77 mo
                 ++ component_text 87 w ++ component_text 68 d ++ time_text t in
       if at_end s0 then Raise ISO8601Error else
       let '(years, s1) := component 89 s0 in
       let '(months, s2) := component 77 s1 in
       let '(weeks, s3) := component 87 s2 in
       let '(days, s4) := component 68 s3 in
       let '(hours, minutes, seconds, s8) :=
         match s4 with
         | 84%N :: s5 =>
             let '(hours, s6) := component 72 s5 in
             let '(minutes, s7) := component 77 s6 in
             let '(seconds, s8) := component 83 s7 in
             (hours, minutes, seconds, s8)
         | _ => (0%N, 0%N, 0%N, s4)
         end in
       if at_end s8 then
         let total :=
           ((Z.of_N weeks * 7 + Z.of_N days) * 24 + Z.of_N hours) * 3600
           + Z.of_N minutes * 60 + Z.of_N seconds in
         if timedelta_max_days <? total / 86400 then Raise OverflowError
         else
           let signed := if negative then - total else total in
           if signed / 86400 <? - timedelta_max_days then Raise OverflowError
           else Ok signed
       else Raise ISO8601Error)
      = (let total := period_seconds {| years := y; months := mo; weeks := w;
                                        days := d; time := t |} in
         if timedelta_max_days <? total / 86400 then Raise OverflowError
         else
           let signed := if negative then - total else total in
           if signed / 86400 <? - timedelta_max_days then Raise OverflowError
           else Ok signed)).
    { intros negative. cbv zeta. rewrite Hend.
      rewrite (component_read 89); [|done|].
      2:{ do 3 (apply component_skip; [done|done|]). apply component_time. }
      rewrite (component_read 77); [|done|].
      2:{ do 2 (apply component_skip; [done|done|]). apply component_time. }
      rewrite (component_read 87); [|done|].
      2:{ apply component_skip; [done|done|]. apply component_time. }
      rewrite (component_read 68); [|done|apply component_time].
      unfold period_seconds. cbn [weeks days time].
      destruct t as [[[h m] s]|]; [|done].
      cbn [time_text default]. change (py "T") with [84%N]. cbn [app].
      rewrite (component_read 72); [|done|].
      2:{ apply component_skip; [done|done|]. by apply component_skip_last. }
      rewrite (component_read 77); [|done|by apply component_skip_last].
      rewrite (component_read_last 83) by done.
      done. }
    unfold period_text. change (py "P") with [80%N]. cbn [years months weeks days time].
    destruct Hsign as [-> | [-> | ->]].
    - rewrite bool_decide_eq_false_2 by done. exact (Hbody false).
    - rewrite bool_decide_eq_false_2 by done. exact (Hbody false).
    - rewrite bool_decide_eq_true_2 by done. exact (Hbody true). }
  rewrite Hparse. cbv zeta.
  assert (Hpos : 0 ≤ period_seconds p).
  { unfold period_seconds. destruct (default (None, None, None) (time p)) as [[h m] s].
    lia. }
  unfold timedelta_max_days in *.
  assert (Hhigh : period_seconds p / 86400 ≤ 999999999).
  { apply Z.div_le_upper_bound; lia. }
  assert (0 ≤ period_seconds p / 86400) by (apply Z.div_pos; lia).
  assert (Hlow : - 999999999 ≤ - period_seconds p / 86400).
  { apply Z.div_le_lower_bound; lia. }
  destruct (Z.ltb_spec 999999999 (period_seconds p / 86400)); [lia|].
  case_bool_decide.
  - match goal with |- context [?a <? ?b] => destruct (Z.ltb_spec a b) end; [lia|done].
  - match goal with |- context [?a <? ?b] => destruct (Z.ltb_spec a b) end; [lia|done].
Qed.

End DurationParsing.


Section DurationClaims.
Local Open Scope Z_scope.

(** C8: for every total n >= 0 of seconds, below or beyond 99 hours,
    rendering n as hours = n div 3600, minutes = (n mod 3600) div 60 and
    seconds = n mod 60 in the zero-padded form and reading the three
    fields back as hours * 3600 + minutes * 60 + seconds gives n. *)
Theorem duration_round_trip (n : Z) (Hn : 0 ≤ n) :
  parse_hms (format_hms n) = Some n.
Proof.
  rewrite format_hms_nonneg, parse_hms_fields by done. f_equal.
  pose proof (Z.mod_pos_bound n 3600 ltac:(lia)) as Hr.
  pose proof (Z.mod_pos_bound n 60 ltac:(lia)) as Hs.
  rewrite !Z2N.id; [| lia | apply Z.div_pos; lia | apply Z.div_pos; lia].
  assert (Hmm : n mod 60 = (n mod 3600) mod 60).
  { symmetry. apply (Z.mod_mod_divide n 3600 60). by exists 60. }
  rewrite Hmm.
  pose proof (Z.div_mod n 3600 ltac:(lia)).
  pose proof (Z.div_mod (n mod 3600) 60 ltac:(lia)).
  lia.
Qed.

Lemma duration_round_trip_witness :
  0 ≤ 400271 ∧ parse_hms (format_hms 400271) = Some 400271.
Proof. split; [lia | apply (duration_round_trip 400271); lia]. Defined.

(** C7, as the code has it: the two documented examples, and in general
    a duration that is not negative (no sign, a plus sign, or a minus
    sign in front of a duration of zero), whatever components its text
    writes or leaves out, is parsed to the total of its weeks, days,
    hours, minutes and seconds and rendered as HH:MM:SS, each field on
    exactly two digits, whenever the hours of the total do not exceed
    99. *)
Theorem clean_duration_time_hms (sign : pystr) (p : period)
    (Hsign : sign = [] ∨ sign = py "+" ∨ (sign = py "-" ∧ period_seconds p = 0))
    (Hwritten : period_text p ≠ py "P")
    (Hmax : period_seconds p < 360000) :
  let duration := sign ++ period_text p in
  let total := period_seconds p in
  clean_duration_time (py "PT1H2M3S") = Ok (py "01:02:03") ∧
  clean_duration_time (py "PT15M25S") = Ok (py "00:15:25") ∧
  parse_duration_total_seconds duration = Ok total ∧
  clean_duration_time duration
  = Ok (two_digits (total / 3600) ++ py ":"
        ++ two_digits ((total mod 3600) / 60) ++ py ":"
        ++ two_digits (total mod 60)) ∧
  0 ≤ total / 3600 < 100 ∧ 0 ≤ (total mod 3600) / 60 < 60 ∧ 0 ≤ total mod 60 < 60.
Proof.
  intros duration total.
  split; [by vm_compute|]. split; [by vm_compute|].
  assert (Hge : 0 ≤ total).
  { unfold total, period_seconds.
    destruct (default (None, None, None) (time p)) as [[h m] s]. lia. }
  assert (Hparse : parse_duration_total_seconds duration = Ok total).
  { unfold duration.
    rewrite parse_period_text.
    - case_bool_decide as Hminus; [|done].
      destruct Hsign as [-> | [-> | [_ Hzero]]]; [done|done|].
      fold total in Hzero |- *. by rewrite Hzero.
    - destruct Hsign as [? | [? | [? _]]]; auto.
    - done.
    - fold total. unfold timedelta_max_days. lia. }
  assert (Hlt : total < 360000) by exact Hmax.
  clearbody total duration. clear Hmax.
  pose proof (Z.mod_pos_bound total 3600 ltac:(lia)).
  pose proof (Z.mod_pos_bound total 60 ltac:(lia)).
  assert (0 ≤ total / 3600 < 100).
  { split; [apply Z.div_pos; lia|]. apply Z.div_lt_upper_bound; lia. }
  assert (0 ≤ total mod 3600 / 60 < 60).
  { split; [apply Z.div_pos; lia|]. apply Z.div_lt_upper_bound; lia. }
  split_and!; try done; try lia.
  unfold clean_duration_time. rewrite Hparse.
  cbn [mbind outcome_bind mret outcome_ret]. f_equal. unfold format_hms. cbv zeta.
  rewrite !format_0d_two_digits by lia. done.
Qed.

Lemma clean_duration_time_hms_witness :
  clean_duration_time (py "P1DT2H5S") = Ok (py "26:00:05").
Proof.
  refine (proj1 (proj2 (proj2 (proj2 (clean_duration_time_hms []
            {| years := None; months := None; weeks := None; days := Some 1%N;
               time := Some (Some 2%N, None, Some 5%N) |} _ _ _))))).
  - left. reflexivity.
  - vm_compute. discriminate.
  - vm_compute. reflexivity.
Defined.

(** C7 as stated fails: a duration with a minus sign does not exceed 99
    hours, and its rendering is no HH:MM:SS with two hour digits:
    [-PT1S] gives [-1:59:59]. *)
Lemma negative_duration_not_hms :
  ¬ (∀ duration total,
       parse_duration_total_seconds duration = Ok total →
       total ≤ 99 * 3600 →
       ∃ h m s, 0 ≤ h < 100 ∧ 0 ≤ m < 100 ∧ 0 ≤ s < 100 ∧
         clean_duration_time duration
         = Ok (two_digits h ++ py ":" ++ two_digits m ++ py ":" ++ two_digits s)).
Proof.
  intros Hall.
  destruct (Hall (py "-PT1S") (-1) ltac:(vm_compute; reflexivity) ltac:(lia))
    as (h & m & s & Hh & _ & _ & Heq).
  assert (Hrun : clean_duration_time (py "-PT1S") = Ok (py "-1:59:59"))
    by (vm_compute; reflexivity).
  rewrite Hrun in Heq. unfold two_digits in Heq.
  change (py "-1:59:59") with [45; 49; 58; 53; 57; 58; 53; 57]%N in Heq.
  cbn [app] in Heq. injection Heq as Hsign _. lia.
Qed.

End DurationClaims.


(** ** Upload timestamps *)

Section TimestampFacts.
Local Open Scope N_scope.

Lemma fixed_digits_zfill (width : nat) (n : N) (rest : pystr) :
  n < 10 ^ N.of_nat (S width) →
  fixed_digits (S width) (zfill (S width) (str_N n) ++ rest) = Some (n, rest).
Proof.
  intros Hn. unfold fixed_digits.
  pose proof (zfill_length width n Hn) as Hlen.
  rewrite take_app_length', drop_app_length' by done.
  rewrite Hlen, Nat.eqb_refl, zfill_value. reflexivity.
Qed.

Lemma days_in_month_le (y m : N) : days_in_month y m ≤ 31.
Proof.
  unfold days_in_month.
  repeat match goal with |- context [if ?b then _ else _] => destruct b end; lia.
Qed.

Lemma fromisoformat_wire (y mo d h mi s : N) :
  1 ≤ y ≤ 9999 → 1 ≤ mo ≤ 12 → 1 ≤ d ≤ days_in_month y mo →
  h < 24 → mi < 60 → s < 60 →
  fromisoformat (wire_timestamp y mo d h mi s)
  = Ok {| year := y; month := mo; day := d;
          hour := h; minute := mi; second := s |}.
Proof.
  intros Hy Hmo Hd Hh Hmi Hs.
  pose proof (days_in_month_le y mo) as Hdm.
  unfold fromisoformat, wire_timestamp, iso_date, iso_time.
  change (py "-") with [45%N]. change (py ":") with [58%N].
  change (py "T") with [84%N]. change (py "Z") with [90%N].
  rewrite <- !app_assoc.
  rewrite (fixed_digits_zfill 3) by (simpl; lia).
  cbn [mbind option_bind app expect N.eqb Pos.eqb].
  rewrite (fixed_digits_zfill 1) by (simpl; lia).
  cbn [mbind option_bind app expect N.eqb Pos.eqb].
  rewrite (fixed_digits_zfill 1) by (simpl; lia).
  cbn [mbind option_bind app expect N.eqb Pos.eqb].
  assert (Hdate : N.leb 1 y && N.leb 1 mo && N.leb mo 12 && N.leb 1 d
                  && N.leb d (days_in_month y mo) = true).
  { repeat (apply andb_true_intro; split); apply N.leb_le; lia. }
  rewrite Hdate. cbn [negb].
  rewrite (fixed_digits_zfill 1) by (simpl; lia).
  cbn [mbind option_bind app expect N.eqb Pos.eqb].
  rewrite (fixed_digits_zfill 1) by (simpl; lia).
  cbn [mbind option_bind app expect N.eqb Pos.eqb].
  rewrite (fixed_digits_zfill 1 s [90]) by (simpl; lia).
  cbn [mbind option_bind fraction_tz_ok tz_ok N.eqb Pos.eqb orb].
  assert (Htime : N.ltb h 24 && N.ltb mi 60 && N.ltb s 60 = true).
  { repeat (apply andb_true_intro; split); apply N.ltb_lt; lia. }
  by rewrite Htime.
Qed.

(** C6: the documented example, and in general an upload timestamp in
    its wire form YYYY-MM-DDTHH:MM:SSZ is parsed and given back as
    YYYY-MM-DD HH:MM:SS, nineteen characters with the same date and
    time of day. *)
Theorem process_datetime_wire (y mo d h mi s : N)
    (Hy : 1000 ≤ y ≤ 9999) (Hmo : 1 ≤ mo ≤ 12)
    (Hd : 1 ≤ d ≤ days_in_month y mo)
    (Hh : h < 24) (Hmi : mi < 60) (Hs : s < 60) :
  process_datetime (py "2017-11-13T06:06:22Z") = Ok (py "2017-11-13 06:06:22") ∧
  process_datetime (wire_timestamp y mo d h mi s)
  = Ok (iso_date y mo d ++ py " " ++ iso_time h mi s) ∧
  length (iso_date y mo d ++ py " " ++ iso_time h mi s) = 19%nat.
Proof.
  pose proof (days_in_month_le y mo) as Hdm.
  split; [by vm_compute|]. split.
  - unfold process_datetime. rewrite fromisoformat_wire by (done || lia).
    cbn [mbind outcome_bind mret outcome_ret]. f_equal.
    unfold strftime, iso_date, iso_time. cbn [year month day hour minute second].
    by rewrite <- !app_assoc.
  - unfold iso_date, iso_time. rewrite !length_app.
    rewrite (zfill_length 3), !(zfill_length 1) by (simpl; lia).
    reflexivity.
Qed.

Lemma process_datetime_wire_witness :
  process_datetime (wire_timestamp 2020 2 29 23 59 59)
  = Ok (py "2020-02-29 23:59:59").
Proof.
  refine (proj1 (proj2 (process_datetime_wire 2020 2 29 23 59 59 _ _ _ _ _ _)));
    vm_compute; (reflexivity || (split; discriminate)).
Defined.

End TimestampFacts.

(** ** Timestamp normalization *)

Section CleanDateTime.

Lemma filter_ascii_id (t : pystr) :
  forallb (λ c, N.ltb c 128) t = true →
  List.filter (λ c, N.ltb c 128) t = t.
Proof.
  induction t as [|c t IH]; [done|]. simpl.
  intros [Hc Ht]%andb_prop. by rewrite Hc, IH.
Qed.

(** A two-character marker [x y] placed after a text without it: the
    marker is found, and it is the only occurrence when [x ≠ y]. *)
Lemma startswith_marker_tail (x y a : N) (t : pystr) (u v : N) :
  startswith [x; y] (a :: t) = false → u ≠ y →
  startswith [x; y] (a :: t ++ [u; v]) = false.
Proof.
  intros Hs Huy. simpl in *.
  destruct (N.eqb x a); [|done]. simpl in *.
  destruct t as [|b t]; simpl in *.
  - destruct (N.eqb_spec y u); [congruence|done].
  - by destruct (N.eqb y b).
Qed.

Lemma contains_marker (x y : N) (t : pystr) :
  contains [x; y] (t ++ [x; y]) = true.
Proof.
  induction t as [|a t IH].
  - simpl. by rewrite !N.eqb_refl.
  - cbn [app contains]. rewrite IH. apply orb_true_r.
Qed.

Lemma contains_other_marker (x y u v : N) (t : pystr) :
  contains [x; y] t = false → u ≠ y → x ≠ u →
  contains [x; y] (t ++ [u; v]) = false.
Proof.
  intros Ht Huy Hxu. induction t as [|a t IH].
  - simpl. destruct (N.eqb_spec x u); [done|]. simpl.
    destruct (N.eqb x v); by rewrite ?andb_false_r.
  - cbn [contains] in Ht. apply orb_false_elim in Ht as [Hs Ht].
    cbn [app contains].
    rewrite (startswith_marker_tail x y a t u v Hs Huy).
    by apply IH.
Qed.

Lemma replace_marker (x y : N) (new t : pystr) :
  x ≠ y → contains [x; y] t = false →
  replace [x; y] new (t ++ [x; y]) = t ++ new.
Proof.
  intros Hxy Ht. unfold replace. induction t as [|a t IH].
  - simpl. rewrite !N.eqb_refl. simpl. by rewrite app_nil_r.
  - cbn [contains] in Ht. apply orb_false_elim in Ht as [Hs Ht].
    cbn [app replace_go].
    pose proof (startswith_marker_tail x y a t x y Hs Hxy) as Hs'.
    cbn [app] in Hs'. rewrite Hs'. f_equal. by apply IH.
Qed.

(** C9: a raw timestamp whose time is followed by one non-ASCII
    character and a final PM (or AM) comes back as the time, exactly one
    ASCII space, and the marker. *)
Theorem clean_date_time_marker (time : pystr) (space : N)
    (Hascii : forallb (λ c, N.ltb c 128) time = true)
    (Hspace : (128 ≤ space)%N)
    (Hpm : contains (py "PM") time = false) :
  clean_date_time (time ++ [space] ++ py "PM") = time ++ py " " ++ py "PM" ∧
  (contains (py "AM") time = false →
   clean_date_time (time ++ [space] ++ py "AM") = time ++ py " " ++ py "AM").
Proof.
  assert (Hf : ∀ marker, forallb (λ c, N.ltb c 128) marker = true →
    List.filter (λ c, N.ltb c 128) (time ++ [space] ++ marker) = time ++ marker).
  { intros marker Hm. rewrite !List.filter_app.
    rewrite (filter_ascii_id time), (filter_ascii_id marker) by done.
    simpl. destruct (N.ltb_spec space 128); [lia|done]. }
  unfold clean_date_time. split.
  - rewrite Hf by done. change (py "PM") with [80%N; 77%N].
    rewrite contains_marker. by apply replace_marker.
  - intros Ham. rewrite Hf by done.
    change (py "PM") with [80%N; 77%N] in *.
    change (py "AM") with [65%N; 77%N] in *.
    rewrite contains_other_marker by done.
    by apply replace_marker.
Qed.

Lemma clean_date_time_marker_witness :
  clean_date_time (py "Nov 13, 2023, 6:06:22" ++ [8239%N] ++ py "PM")
  = py "Nov 13, 2023, 6:06:22 PM".
Proof.
  refine (proj1 (clean_date_time_marker (py "Nov 13, 2023, 6:06:22") 8239 _ _ _));
    vm_compute; (reflexivity || discriminate).
Defined.

End CleanDateTime.

(** ** The history extractor *)

Section ExtractorFacts.

Lemma getitem_raises (c : cursor) (key : string) (e : exn) :
  getitem c key = Raise e → e = KeyError key.
Proof.
  unfold getitem. destruct c as [|[d [s|name attrs]] c]; try congruence.
  destruct (assoc key attrs); congruence.
Qed.

Lemma extract_video_cases (video : cursor) (l : list log_record) :
  extract_video_result video l (extract_video video l).
Proof.
  unfold extract_video.
  destruct (find "a" video) as [title_element|] eqn:Hfind; cbn [fmap option_fmap option_map].
  2:{ run. apply video_dropped. unfold drop_rule. by rewrite Hfind. }
  destruct (strip (text title_element)) as [|c title] eqn:Htitle.
  { run. apply video_dropped. unfold drop_rule. by rewrite Hfind, Htitle. }
  destruct (watch_url_search (c :: title)) eqn:Hurl.
  { run. apply video_dropped. unfold drop_rule. by rewrite Hfind, Htitle. }
  assert (Hkeep : drop_rule video = false).
  { unfold drop_rule. by rewrite Hfind, Htitle. }
  run. destruct (getitem title_element "href") as [url|e] eqn:Hhref.
  2:{ apply getitem_raises in Hhref as Heq. subst e.
      apply (video_href_missing _ _ title_element); auto. }
  destruct (find_next "a" title_element) as [channel_element|] eqn:Hnext.
  2:{ rewrite <- Htitle.
      apply (video_emitted video l title_element url (None, None, None)); try done.
      by rewrite Hnext. }
  destruct (getitem channel_element "href") as [channel_url|e] eqn:Hch.
  2:{ apply getitem_raises in Hch as Heq. subst e.
      apply (video_href_missing _ _ title_element); eauto. }
  rewrite <- Htitle.
  destruct (find_next_sibling_string channel_element) as [[|c' s]|] eqn:Hsib.
  - apply (video_emitted video l title_element url
             (Some (strip (text channel_element)), Some channel_url, None)); try done.
    rewrite Hnext. exists channel_url. by rewrite Hsib.
  - apply (video_emitted video l title_element url
             (Some (strip (text channel_element)), Some channel_url,
              Some (strip (c' :: s)))); try done.
    rewrite Hnext. exists channel_url. by rewrite Hsib.
  - apply (video_emitted video l title_element url
             (Some (strip (text channel_element)), Some channel_url, None)); try done.
    rewrite Hnext. exists channel_url. by rewrite Hsib.
Qed.

Lemma drop_rule_title (video title_element : cursor) :
  drop_rule video = false → find "a" video = Some title_element →
  strip (text title_element) ≠ [].
Proof.
  unfold drop_rule. intros Hd Hf. rewrite Hf in Hd.
  by destruct (strip (text title_element)).
Qed.

(** C2, as the code has it: a container whose first link gives no title
    text, or a title text holding a watch URL, is dropped with one
    warning; any other container whose title link, and the link that
    follows it in the document if there is one, carry an href yields
    exactly one record with the thirteen keys, title and url populated,
    all the platform metadata unset, channel_name and channel_url
    populated exactly when a link follows the title link in the
    document, and date_time exactly when a non-empty string is a later
    sibling of that link. *)
Theorem extract_video_rule (video : cursor) (l : list log_record) :
  (drop_rule video = true →
   extract_video video l = (Ok None, l ++ [Warning_no_title])) ∧
  (drop_rule video = false →
   ∀ title_element,
     find "a" video = Some title_element →
     ∀ url, getitem title_element "href" = Ok url →
     (∀ channel_element, find_next "a" title_element = Some channel_element →
        returns (getitem channel_element "href")) →
     ∃ r, extract_video video l = (Ok (Some r), l) ∧
       r.*1 = fieldnames ∧
       assoc "title" r = Some (Some (strip (text title_element))) ∧
       strip (text title_element) ≠ [] ∧
       assoc "url" r = Some (Some url) ∧
       (∀ k, k ∈ metadata_columns → assoc k r = Some None) ∧
       (populated "channel_name" r ↔ is_Some (find_next "a" title_element)) ∧
       (populated "channel_url" r ↔ is_Some (find_next "a" title_element)) ∧
       (populated "date_time" r ↔
          ∃ channel_element c s,
            find_next "a" title_element = Some channel_element ∧
            find_next_sibling_string channel_element = Some (c :: s))).
Proof.
  pose proof (extract_video_cases video l) as Hcases.
  split.
  - intros Hdrop. inversion Hcases as [Hd Heq|te Hd|te url ch Hd]; [done| |];
      congruence.
  - intros Hkeep title_element Hfind url Hurl Hch.
    inversion Hcases as [Hd Heq|te Hd Hte Hmiss Heq|te url' ch Hd Hte Hurl' Hchannel Heq];
      [congruence| |].
    + exfalso. assert (te = title_element) as -> by congruence.
      destruct Hmiss as [Hmiss|(ce & Hnext & Hmiss)]; [congruence|].
      destruct (Hch ce Hnext) as [? ?]. congruence.
    + assert (te = title_element) as -> by congruence. clear Hte.
      eexists. split; [reflexivity|].
      split; [reflexivity|]. split; [reflexivity|].
      split; [by eapply drop_rule_title|].
      split; [by replace url with url' by congruence|].
      split.
      { intros k Hk. unfold metadata_columns in Hk.
        repeat (apply elem_of_cons in Hk as [->|Hk]; [reflexivity|]).
        by apply elem_of_nil in Hk. }
      unfold populated. cbn [assoc String.eqb Ascii.eqb Bool.eqb].
      destruct (find_next "a" title_element) as [ce|].
      * destruct Hchannel as (curl & Hcurl & ->). cbn [fst snd].
        split; [split; eauto|]. split; [split; eauto|].
        destruct (find_next_sibling_string ce) as [[|c s]|] eqn:Hsib;
          cbn beta iota.
        -- split; [by intros [? ?]|]. intros (ce' & ? & ? & Hce & Hs).
           injection Hce as <-. congruence.
        -- split; eauto 10.
        -- split; [by intros [? ?]|]. intros (ce' & ? & ? & Hce & Hs).
           injection Hce as <-. congruence.
      * subst ch. cbn [fst snd].
        split; [split; [by intros [? ?]|by intros [? ?]]|].
        split; [split; [by intros [? ?]|by intros [? ?]]|].
        split; [by intros [? ?]|]. by intros (? & ? & ? & ? & ?).
Qed.


Lemma extract_video_rule_witness :
  extract_video (soup_elements [url_title_entry]) []
  = (Ok None, [Warning_no_title]) ∧
  ∃ r, extract_video (soup_elements [history_entry]) [] = (Ok (Some r), []) ∧
       populated "channel_name" r.
Proof.
  split.
  - refine (proj1 (extract_video_rule (soup_elements [url_title_entry]) []) _).
    vm_compute. reflexivity.
  - destruct (proj2 (extract_video_rule (soup_elements [history_entry]) [])
                ltac:(vm_compute; reflexivity)
                (drop 2 (soup_elements [history_entry]))
                ltac:(vm_compute; reflexivity)
                (py "https://www.youtube.com/watch?v=dQw4w9WgXcQ")
                ltac:(vm_compute; reflexivity))
      as (r & Hr & _ & _ & _ & _ & _ & Hname & _).
    + intros channel_element Hce. vm_compute in Hce. injection Hce as <-.
      eexists. vm_compute. reflexivity.
    + exists r. split; [exact Hr|]. apply Hname. vm_compute. eauto.
Defined.

(** C2 as stated fails: a container that is not dropped need not have
    its channel and time fields populated. *)
Lemma kept_video_not_fully_populated :
  ¬ (∀ video l, drop_rule video = false →
       ∃ r, extract_video video l = (Ok (Some r), l) ∧
            populated "title" r ∧ populated "url" r ∧
            populated "channel_name" r ∧ populated "channel_url" r ∧
            populated "date_time" r).
Proof.
  intros Hall.
  destruct (Hall (soup_elements [lone_title_entry]) []
              ltac:(vm_compute; reflexivity))
    as (r & Hr & _ & _ & [v Hv] & _).
  vm_compute in Hr. injection Hr as <-. discriminate Hv.
Qed.

(** C1 at a history entry whose time text holds U+202F: the record
    carries the text as found, which is not its normalized form. *)
Theorem emitted_date_time_is_raw :
  ∃ r, extract_video (soup_elements [history_entry]) [] = (Ok (Some r), []) ∧
       assoc "date_time" r = Some (Some raw_watch_time) ∧
       clean_date_time raw_watch_time = py "Nov 13, 2023, 6:06:22 PM PST" ∧
       raw_watch_time ≠ clean_date_time raw_watch_time.
Proof.
  eexists. split; [vm_compute; reflexivity|].
  split; [vm_compute; reflexivity|].
  split; [vm_compute; reflexivity|].
  vm_compute. discriminate.
Qed.

Lemma scan_videos_keys (video_elements : list cursor) (l : list log_record) :
  match scan_videos video_elements l with
  | (Ok videos_data, _) => Forall (λ r : record, r.*1 = fieldnames) videos_data
  | (Raise e, _) => e = KeyError "href"
  end.
Proof.
  revert l. induction video_elements as [|video rest IH]; intros l.
  - by constructor.
  - cbn [scan_videos]. run.
    pose proof (extract_video_cases video l) as Hcases.
    destruct (extract_video video l) as [[r|e] l'].
    + specialize (IH l'). destruct (scan_videos rest l') as [[data|e] l'']; [|done].
      inversion Hcases; subst; [done|]. by constructor.
    + by inversion Hcases.
Qed.

Lemma writerow_fieldnames (r : record) :
  r.*1 = fieldnames →
  ∃ line, writerow fieldnames r = Ok line ∧ length line = 13.
Proof.
  intros Hkeys. unfold writerow.
  assert (Hin : forallb (λ kv : string * option pystr,
                   existsb (String.eqb kv.1) fieldnames) r
                = forallb (λ k, existsb (String.eqb k) fieldnames) (r.*1)).
  { clear Hkeys. induction r as [|kv r IH]; [done|].
    cbn [forallb fmap list_fmap]. by rewrite IH. }
  rewrite Hin, Hkeys. eexists. split; [reflexivity|].
  by rewrite length_fmap.
Qed.

Lemma writerows_fieldnames (data : list record) :
  Forall (λ r : record, r.*1 = fieldnames) data →
  ∃ lines, writerows fieldnames data = Ok lines ∧
           Forall (λ line, length line = 13) lines.
Proof.
  induction 1 as [|r data Hr _ (lines & Hlines & Hlen)].
  - exists []. by split.
  - destruct (writerow_fieldnames r Hr) as (line & Hline & Hl).
    exists (line :: lines). cbn [writerows]. rewrite Hline, Hlines.
    split; [done|]. by constructor.
Qed.

(** C10: whatever the document, the file written has the thirteen
    column names in the order of the source, video_duration third, every
    line has thirteen fields and every record of videos_data has exactly
    these keys in this order; the only other outcome is the KeyError of
    a link without href, raised before any file is opened. *)
Theorem extract_data_from_html_header (soup : list node) (l : list log_record) :
  match extract_data_from_html soup l with
  | (Ok file, _) =>
      header file =
        ["title"; "url"; "video_duration"; "channel_name"; "channel_url";
         "date_time"; "video_date_upload"; "video_views"; "video_likes";
         "video_dislikes"; "video_comment_count"; "video_description";
         "video_tags"] ∧
      header file !! 2 = Some "video_duration" ∧
      Forall (λ line, length line = 13) (rows file)
  | (Raise e, _) => e = KeyError "href"
  end ∧
  match scan_videos (find_all is_video_element (soup_elements soup)) l with
  | (Ok videos_data, _) =>
      Forall (λ r : record, r.*1 = fieldnames) videos_data
  | (Raise e, _) => e = KeyError "href"
  end.
Proof.
  pose proof (scan_videos_keys (find_all is_video_element (soup_elements soup)) l)
    as Hkeys.
  split; [|exact Hkeys].
  unfold extract_data_from_html. run.
  destruct (scan_videos _ l) as [[data|e] l']; [|done].
  destruct (writerows_fieldnames data Hkeys) as (lines & Hlines & Hlen).
  unfold write_csv. rewrite Hlines. by cbn.
Qed.

End ExtractorFacts.

(** ** The table under an assignment through [loc] *)

Section DataFrameFacts.










End DataFrameFacts.


Section UpdateFacts.

Variable youtube : pystr → outcome response.
Variable astype : cast.



Lemma get_locs_nth (labels cols : list string) (locs : list nat) (k c : nat)
    (label : string) :
  get_locs labels cols = Ok locs → labels !! k = Some label →
  get_loc label cols = Ok c → locs !! k = Some c.
Proof.
  revert locs k. induction labels as [|l labels IH]; intros locs k Hl Hk Hc; [done|].
  simpl in Hl. destruct (get_loc l cols) as [i|e] eqn:Hi; [|done].
  destruct (get_locs labels cols) as [js|e]; [|done].
  simpl in Hl. injection Hl as <-.
  destruct k as [|k]; simpl in *.
  - injection Hk as ->. congruence.
  - by apply IH.
Qed.


Lemma field_mapping_length (info : snippet) (details : contentDetails)
    (stats : statistics) (values : list cell) :
  field_mapping info details stats = Ok values → length values = 8.
Proof.
  unfold field_mapping. run.
  repeat match goal with
         | |- context [match ?o with Ok _ => _ | Raise _ => _ end] =>
             destruct o; [|done]
         end.
  by intros [= <-].
Qed.

(** What the body of the [try] statement can do to the world. *)
Lemma lookup_and_update_cases (video_url video_id : pystr) (w w' : world)
    (o : outcome ()) :
  lookup_and_update youtube astype video_url video_id w = (o, w') →
  (∃ e, o = Raise e ∧ w' = w)
  ∨ (o = Ok () ∧ w' = add_record (Warning_no_items video_id) w)
  ∨ (o = Ok () ∧ ∃ values mask df',
       length values = 8 ∧
       series_eq (table w) "url" video_url = Ok mask ∧
       loc_setitem astype (table w) mask metadata_columns values = Ok df' ∧
       w' = {| table := df'; logged := logged w |}).
Proof.
  unfold lookup_and_update, read_csv, to_csv, facet. run.
  destruct (youtube video_id) as [video_response|e]; [|intros [= <- <-]; eauto].
  destruct (items video_response) as [[|first rest]|];
    [intros [= <- <-]; eauto| |intros [= <- <-]; eauto].
  destruct (item_snippet first) as [video_info|]; [|intros [= <- <-]; eauto].
  destruct (item_contentDetails first) as [details|]; [|intros [= <- <-]; eauto].
  destruct (field_mapping _ _ _) as [values|e] eqn:Hvalues;
    [|intros [= <- <-]; eauto].
  destruct (series_eq (table w) "url" video_url) as [mask|e] eqn:Hmask;
    [|intros [= <- <-]; eauto].
  destruct (loc_setitem astype (table w) mask metadata_columns values)
    as [df'|e] eqn:Hset; [|intros [= <- <-]; eauto].
  intros [= <- <-]. right. right. split; [done|].
  exists values, mask, df'. split; [by eapply field_mapping_length|]. done.
Qed.

Lemma lookup_and_update_raise (video_url video_id : pystr) (w w' : world) (e : exn) :
  lookup_and_update youtube astype video_url video_id w = (Raise e, w') → w' = w.
Proof.
  intros H. apply lookup_and_update_cases in H
    as [(e' & _ & ->)|[[? _]|[? _]]]; done.
Qed.


End UpdateFacts.


Section UpdateClaims.





End UpdateClaims.


(** ** Identifiers *)

Section IdentifierFacts.

Lemma startswith_app (p s : pystr) : startswith p (p ++ s) = true.
Proof. induction p as [|c p IH]; [done|]. simpl. by rewrite N.eqb_refl. Qed.

Lemma contains_nil (c : N) (p : pystr) : contains (c :: p) [] = false.
Proof. reflexivity. Qed.



Lemma replace_absent (c : N) (old new s : pystr) :
  contains (c :: old) s = false → replace (c :: old) new s = s.
Proof.
  unfold replace. induction s as [|a s IH]; [done|].
  cbn [contains]. intros [Hs Hc]%orb_false_elim.
  cbn [replace_go]. rewrite Hs. f_equal. by apply IH.
Qed.

Lemma extract_video_id_found (url : pystr) (w : world) :
  contains watch_prefix url = true →
  extract_video_id (Some url) w = (Ok (Some (replace watch_prefix [] url)), w).
Proof.
  intros Hc. unfold extract_video_id. destruct url as [|c url]; [done|].
  by rewrite Hc.
Qed.

Lemma extract_video_id_invalid (video_url : option pystr) (w : world) :
  (∀ u, video_url = Some u → contains watch_prefix u = false) →
  extract_video_id video_url w
  = (Ok None, add_record (Warning_invalid_url video_url) w).
Proof.
  intros Hc. unfold extract_video_id. destruct video_url as [[|c url]|]; try done.
  by rewrite (Hc (c :: url)).
Qed.

End IdentifierFacts.

(** ** The loop over the rows read *)

Section BatchFacts.

Variable youtube : pystr → outcome response.
Variable astype : cast.


(** What the body of the loop can do to the world. *)
Lemma process_row_cases (row : list (string * option pystr)) (w w' : world)
    (o : outcome ()) :
  process_row youtube astype row w = (o, w') →
  (o = Raise (KeyError "url") ∧ assoc "url" row = None ∧ w' = w)
  ∨ (o = Ok () ∧ is_Some (assoc "url" row) ∧
     ∃ extra,
       Forall (λ r, row_event r = false) extra ∧
       ((table w' = table w ∧ logged w' = logged w ++ row_start row :: extra)
        ∨ (∃ u values mask df',
             assoc "url" row = Some (Some u) ∧
             contains watch_prefix u = true ∧
             length values = 8 ∧
             series_eq (table w) "url" u = Ok mask ∧
             loc_setitem astype (table w) mask metadata_columns values = Ok df' ∧
             table w' = df' ∧ logged w' = logged w ++ row_start row :: extra))).
Proof.
  unfold process_row, row_start. run_world.
  destruct (assoc "url" row) as [video_url|] eqn:Hurl;
    [|intros [= <- <-]; by left].
  intros Hrun. right.
  destruct video_url as [u|]; cbn beta iota in Hrun.
  2:{ rewrite extract_video_id_invalid in Hrun by done.
      cbv [add_record world_logger] in Hrun. cbn [table logged] in Hrun.
      injection Hrun as <- <-. split; [done|]. split; [done|].
      exists [Warning_invalid_url None; Warning_failed_extract None].
      split; [by repeat constructor|]. left. cbn [table logged].
      by rewrite <- !app_assoc. }
  destruct (contains watch_prefix u) eqn:Hc.
  2:{ rewrite extract_video_id_invalid in Hrun by (by intros ? [= <-]).
      cbv [add_record world_logger] in Hrun. cbn [table logged] in Hrun.
      injection Hrun as <- <-. split; [done|]. split; [done|].
      exists [Warning_invalid_url (Some u); Warning_failed_extract (Some u)].
      split; [by repeat constructor|]. left. cbn [table logged].
      by rewrite <- !app_assoc. }
  rewrite extract_video_id_found in Hrun by done.
  destruct (replace watch_prefix [] u) as [|c video_id] eqn:Hid.
  { injection Hrun as <- <-. split; [done|]. split; [done|].
    exists [Warning_failed_extract (Some u)].
    split; [by repeat constructor|]. left. cbn [table logged].
    by rewrite <- !app_assoc. }
  destruct (lookup_and_update youtube astype u (c :: video_id) _) as [o1 w1] eqn:Hbody.
  apply lookup_and_update_cases in Hbody
    as [(e & -> & ->)|[[-> ->]|[-> (values & mask & df' & Hlen & Hmask & Hset & ->)]]].
  - injection Hrun as <- <-. split; [done|]. split; [done|].
    exists [Warning_error (c :: video_id) e].
    split; [by repeat constructor|]. left. cbn [table logged].
    by rewrite <- !app_assoc.
  - injection Hrun as <- <-. split; [done|]. split; [done|].
    exists [Warning_no_items (c :: video_id)].
    split; [by repeat constructor|]. left.
    cbv [add_record world_logger]. cbn [table logged].
    by rewrite <- !app_assoc.
  - injection Hrun as <- <-. split; [done|]. split; [done|].
    exists []. split; [constructor|]. right.
    exists u, values, mask, df'. cbn [table logged] in *. by split_and!.
Qed.



Lemma batch_completes_log (reader : list (list (string * option pystr))) (w : world) :
  Forall (λ row, is_Some (assoc "url" row)) reader →
  ∃ w', extract_data_from_api youtube astype reader w = (Ok (), w') ∧
        List.filter row_event (logged w')
        = List.filter row_event (logged w) ++ (row_start <$> reader).
Proof.
  intros Hall. revert w. induction Hall as [|row reader Hrow _ IH]; intros w.
  - exists w. split; [done|]. by rewrite app_nil_r.
  - cbn [extract_data_from_api]. cbv [mbind M_bind].
    destruct (process_row youtube astype row w) as [o1 w1] eqn:Hstep.
    apply process_row_cases in Hstep
      as [(_ & Hnone & _)|(-> & _ & extra & Hextra & Hlog)].
    { rewrite Hnone in Hrow. by destruct Hrow. }
    destruct (IH w1) as (w' & Hrest & Hfilter).
    exists w'. split; [done|]. rewrite Hfilter.
    assert (Hw1 : logged w1 = logged w ++ row_start row :: extra).
    { destruct Hlog as [[_ ?]|(? & ? & ? & ? & ? & ? & ? & ? & ? & ? & ?)]; done. }
    rewrite Hw1, List.filter_app. cbn [List.filter fmap list_fmap].
    assert (Hstart : row_event (row_start row) = true).
    { unfold row_start. by destruct (assoc "url" row) as [[?|]|]. }
    rewrite Hstart.
    assert (Hnone : List.filter row_event extra = []).
    { clear -Hextra. induction Hextra as [|r extra Hr _ IH]; [done|].
      simpl. by rewrite Hr. }
    rewrite Hnone, <- app_assoc. reflexivity.
Qed.

End BatchFacts.


Section BatchClaims.

Lemma process_row_raise (youtube : pystr → outcome response) (astype : cast)
    (row : list (string * option pystr)) (u : pystr) (e : exn) (w : world) :
  assoc "url" row = Some (Some u) →
  contains watch_prefix u = true →
  replace watch_prefix [] u ≠ [] →
  (lookup_and_update youtube astype u (replace watch_prefix [] u)
     (add_record (Debug_processing u) w)).1 = Raise e →
  process_row youtube astype row w
  = (Ok (), {| table := table w;
               logged := logged w ++ [Debug_processing u;
                                      Warning_error (replace watch_prefix [] u) e] |}).
Proof.
  intros Hurl Hc Hid Hraise. unfold process_row.
  cbv [mbind M_bind mret M_ret lift logging try_except facet]. rewrite Hurl.
  rewrite extract_video_id_found by done.
  destruct (replace watch_prefix [] u) as [|c video_id] eqn:Hrep; [done|].
  destruct (lookup_and_update youtube astype u (c :: video_id) _) as [o1 w1] eqn:Hbody.
  cbn [fst] in Hraise. subst o1.
  apply lookup_and_update_raise in Hbody as ->.
  cbv [add_record world_logger]. cbn [table logged]. by rewrite <- app_assoc.
Qed.




(** C5: whatever the service returns or raises, and whatever the field
    mapping raises, the loop over the rows read ends normally after
    opening every row in order; a row whose lookup or mapping raises
    leaves the table as it was, adds a warning with the identifier and
    the error, and the loop goes on with the rows that follow. *)
Theorem batch_never_aborts (youtube : pystr → outcome response) (astype : cast)
    (reader : list (list (string * option pystr))) (w : world)
    (Hurl : Forall (λ row, is_Some (assoc "url" row)) reader) :
  (∃ w', extract_data_from_api youtube astype reader w = (Ok (), w') ∧
         List.filter row_event (logged w')
         = List.filter row_event (logged w) ++ (row_start <$> reader)) ∧
  (∀ row rest u e w0,
     assoc "url" row = Some (Some u) →
     contains watch_prefix u = true →
     replace watch_prefix [] u ≠ [] →
     (lookup_and_update youtube astype u (replace watch_prefix [] u)
        (add_record (Debug_processing u) w0)).1 = Raise e →
     let w1 := {| table := table w0;
                  logged := logged w0
                            ++ [Debug_processing u;
                                Warning_error (replace watch_prefix [] u) e] |} in
     process_row youtube astype row w0 = (Ok (), w1) ∧
     extract_data_from_api youtube astype (row :: rest) w0
     = extract_data_from_api youtube astype rest w1).
Proof.
  split; [by apply batch_completes_log|].
  intros row rest u e w0 Hrow Hc Hid Hraise w1.
  pose proof (process_row_raise youtube astype row u e w0 Hrow Hc Hid Hraise) as Hstep.
  split; [exact Hstep|].
  cbn [extract_data_from_api]. cbv [mbind M_bind]. by rewrite Hstep.
Qed.

Lemma batch_never_aborts_witness :
  ∃ w', extract_data_from_api sample_youtube widening sample_reader sample_world
        = (Ok (), w') ∧
        List.filter row_event (logged w')
        = List.filter row_event (logged sample_world) ++ (row_start <$> sample_reader).
Proof.
  refine (proj1 (batch_never_aborts sample_youtube widening sample_reader sample_world _)).
  apply (bool_decide_unpack _). vm_compute. reflexivity.
Defined.




End BatchClaims.

(** ** The functions on some inputs *)

Section Examples.

Example duration_beyond_99_hours :
  clean_duration_time (py "PT100H") = Ok (py "100:00:00").
Proof. vm_compute. reflexivity. Qed.

Example duration_with_days :
  clean_duration_time (py "P1DT2H3M4S") = Ok (py "26:03:04").
Proof. vm_compute. reflexivity. Qed.

Example duration_missing :
  clean_duration_time [] = Raise ISO8601Error.
Proof. reflexivity. Qed.

Example timestamp_missing :
  process_datetime [] = Raise (ValueError "Invalid isoformat string").
Proof. reflexivity. Qed.

Example timestamp_not_a_date :
  process_datetime (py "2017-02-29T06:06:22Z")
  = Raise (ValueError "Invalid isoformat string").
Proof. vm_compute. reflexivity. Qed.

Example watch_url_inside_title :
  watch_url_search (py "see http://youtube.com/watch?v=a_b-c now") = true.
Proof. vm_compute. reflexivity. Qed.

Example mobile_url_is_no_match :
  watch_url_search (py "https://m.youtube.com/watch?v=abc") = false.
Proof. vm_compute. reflexivity. Qed.

Example identifier_of_watch_url :
  extract_video_id (Some (watch_url "dQw4w9WgXcQ")) sample_world
  = (Ok (Some (py "dQw4w9WgXcQ")), sample_world).
Proof. vm_compute. reflexivity. Qed.

Example identifier_of_short_link :
  extract_video_id (Some (py "https://youtu.be/dQw4w9WgXcQ")) sample_world
  = (Ok None,
     {| table := sample_table;
        logged := [Warning_invalid_url (Some (py "https://youtu.be/dQw4w9WgXcQ"))] |}).
Proof. vm_compute. reflexivity. Qed.

Example three_entries_two_warnings :
  (extract_data_from_html [url_title_entry; history_entry; lone_title_entry] []).2
  = [Warning_no_title].
Proof. vm_compute. reflexivity. Qed.

Example three_entries_two_lines :
  (λ file, length (rows file))
    <$> (extract_data_from_html [url_title_entry; history_entry; lone_title_entry] []).1
  = Ok 2.
Proof. vm_compute. reflexivity. Qed.

Example sample_pass_log :
  logged (extract_data_from_api sample_youtube widening sample_reader sample_world).2
  = [Debug_processing (watch_url "removed0000");
     Warning_error (py "removed0000") (ServiceError 403);
     Debug_processing (py "https://youtu.be/dQw4w9WgXcQ");
     Warning_invalid_url (Some (py "https://youtu.be/dQw4w9WgXcQ"));
     Warning_failed_extract (Some (py "https://youtu.be/dQw4w9WgXcQ"));
     Debug_processing (watch_url "dQw4w9WgXcQ")].
Proof. vm_compute. reflexivity. Qed.

Example sample_pass_first_row :
  data (table (extract_data_from_api sample_youtube widening sample_reader
                 sample_world).2) !! 0
  = Some [Str (py "A video"); Str (watch_url "dQw4w9WgXcQ"); Str (py "00:03:33");
          Str (py "A channel"); Str (py "https://www.youtube.com/channel/UC123");
          Str (py "Nov 13, 2023"); Str (py "2009-10-25 06:57:33");
          Float 1500; Float 17; Float 0; Float 2; Str (py "A description");
          Str (py "music,video")].
Proof. vm_compute. reflexivity. Qed.

Example enriched_pass_first_row :
  data (table (extract_data_from_api sample_youtube keep_value sample_reader
                 enriched_world).2) !! 0
  = Some [Str (py "A video"); Str (watch_url "dQw4w9WgXcQ"); Str (py "00:03:33");
          Str (py "A channel"); Str (py "https://www.youtube.com/channel/UC123");
          Str (py "Nov 13, 2023"); Str (py "2009-10-25 06:57:33");
          Int 1500; Int 17; Int 0; Int 2; Str (py "A description");
          Str (py "music,video")].
Proof. vm_compute. reflexivity. Qed.

Example refused_assignment_is_logged :
  extract_data_from_api sample_youtube refusing
    [reader_row (watch_url "dQw4w9WgXcQ")] sample_world
  = (Ok (),
     {| table := sample_table;
        logged := [Debug_processing (watch_url "dQw4w9WgXcQ");
                   Warning_error (py "dQw4w9WgXcQ")
                     (TypeError "Invalid value for dtype")] |}).
Proof. vm_compute. reflexivity. Qed.

End Examples.

(** ** The extractor over a whole document *)

Section DocumentFacts.

Lemma find_in_suffix (name : string) (depth : nat) (after c : cursor) :
  find_in name depth after = Some c → ∃ pre, after = pre ++ c.
Proof.
  revert c. induction after as [|[d e] after IH]; intros c; simpl; [done|].
  destruct (Nat.ltb depth d); [|done].
  destruct (is_tag name e).
  - intros [= <-]. by exists [].
  - intros Hc. destruct (IH c Hc) as [pre ->]. by exists ((d, e) :: pre).
Qed.

Lemma find_in_head (name : string) (depth : nat) (after c : cursor) :
  find_in name depth after = Some c →
  ∃ d e rest, c = (d, e) :: rest ∧ is_tag name e = true.
Proof.
  revert c. induction after as [|[d e] after IH]; intros c; simpl; [done|].
  destruct (Nat.ltb depth d); [|done].
  destruct (is_tag name e) eqn:He.
  - intros [= <-]. by exists d, e, after.
  - apply IH.
Qed.

Lemma first_tag_suffix (name : string) (after c : cursor) :
  first_tag name after = Some c → ∃ pre, after = pre ++ c.
Proof.
  revert c. induction after as [|[d e] after IH]; intros c; simpl; [done|].
  destruct (is_tag name e).
  - intros [= <-]. by exists [].
  - intros Hc. destruct (IH c Hc) as [pre ->]. by exists ((d, e) :: pre).
Qed.

Lemma first_tag_head (name : string) (after c : cursor) :
  first_tag name after = Some c →
  ∃ d e rest, c = (d, e) :: rest ∧ is_tag name e = true.
Proof.
  revert c. induction after as [|[d e] after IH]; intros c; simpl; [done|].
  destruct (is_tag name e) eqn:He.
  - intros [= <-]. by exists d, e, after.
  - apply IH.
Qed.

Lemma links_have_href_suffix (pre c : cursor) :
  links_have_href (pre ++ c) = true → links_have_href c = true.
Proof.
  unfold links_have_href. rewrite forallb_app. by intros [_ ?]%andb_prop.
Qed.

Lemma getitem_href (d : nat) (e : element) (rest : cursor) :
  is_tag "a" e = true → links_have_href ((d, e) :: rest) = true →
  returns (getitem ((d, e) :: rest) "href").
Proof.
  unfold links_have_href, getitem, returns. cbn [forallb snd].
  destruct e as [s|name attrs]; [done|]. cbn [is_tag].
  intros -> [Hhref _]%andb_prop. cbn [negb orb] in Hhref.
  apply bool_decide_eq_true in Hhref as [v Hv]. rewrite Hv. by exists v.
Qed.

Lemma find_all_suffix (p : element → bool) (els c : cursor) :
  c ∈ find_all p els → ∃ pre, els = pre ++ c.
Proof.
  induction els as [|[d e] els IH]; simpl; [by intros ?%elem_of_nil|].
  intros [Hc|Hc]%elem_of_app.
  - destruct (p e); [|by apply elem_of_nil in Hc].
    apply list_elem_of_singleton in Hc as ->. by exists [].
  - destruct (IH Hc) as [pre ->]. by exists ((d, e) :: pre).
Qed.

(** With an href on every link, the loop body returns: it drops the
    container or emits a line of the fixed shape. *)
Lemma extract_video_total (video : cursor) (l : list log_record) :
  links_have_href video = true →
  (drop_rule video = true ∧
   extract_video video l = (Ok None, l ++ [Warning_no_title]))
  ∨ (drop_rule video = false ∧
     ∃ r title url channel_name channel_url date_time,
       extract_video video l = (Ok (Some r), l) ∧
       writerow fieldnames r
       = Ok (extractor_line title url channel_name channel_url date_time) ∧
       title ≠ [] ∧ watch_url_search title = false).
Proof.
  intros Hhref. pose proof (extract_video_cases video l) as Hcases.
  inversion Hcases as [Hd Heq|te Hd Hte Hmiss Heq|te url ch Hd Hte Hurl Hchannel Heq].
  - by left.
  - exfalso. destruct video as [|[d e] after]; [done|].
    cbn [find] in Hte.
    destruct (find_in_suffix _ _ _ _ Hte) as [pre Hpre].
    destruct (find_in_head _ _ _ _ Hte) as (d' & e' & rest & -> & Htag).
    assert (Hte_href : links_have_href ((d', e') :: rest) = true).
    { apply (links_have_href_suffix ((d, e) :: pre)). cbn [app]. by rewrite <- Hpre. }
    destruct Hmiss as [Hmiss|(ce & Hnext & Hmiss)].
    + destruct (getitem_href d' e' rest Htag Hte_href) as [v Hv]. congruence.
    + cbn [find_next] in Hnext.
      destruct (first_tag_suffix _ _ _ Hnext) as [pre' Hpre'].
      destruct (first_tag_head _ _ _ Hnext) as (d'' & e'' & rest' & -> & Htag').
      assert (Hce : links_have_href ((d'', e'') :: rest') = true).
      { apply (links_have_href_suffix ((d', e') :: pre')). cbn [app].
        by rewrite <- Hpre'. }
      destruct (getitem_href d'' e'' rest' Htag' Hce) as [v Hv]. congruence.
  - right. split; [done|].
    assert (Htitle : strip (text te) ≠ [] ∧ watch_url_search (strip (text te)) = false).
    { unfold drop_rule in Hd. rewrite Hte in Hd.
      by destruct (strip (text te)). }
    destruct Htitle as [Hne Hnourl].
    eexists _, (strip (text te)), url, (default [] ch.1.1), (default [] ch.1.2),
      (default [] ch.2).
    split; [reflexivity|]. split; [|done].
    unfold writerow. cbn. by destruct ch as [[[?|] [?|]] [?|]].
Qed.

End DocumentFacts.


Section DocumentClaims.

Lemma scan_videos_lines (video_elements : list cursor) (l : list log_record) :
  match scan_videos video_elements l with
  | (Ok videos_data, l') =>
      ∃ lines, writerows fieldnames videos_data = Ok lines ∧
        Forall line_shape lines ∧
        length lines
        = length (List.filter (λ v, negb (drop_rule v)) video_elements) ∧
        l' = l ++ repeat Warning_no_title
                    (length (List.filter drop_rule video_elements))
  | (Raise e, _) => e = KeyError "href"
  end.
Proof.
  revert l. induction video_elements as [|video rest IH]; intros l.
  - exists []. cbn. by rewrite app_nil_r.
  - cbn [scan_videos]. run.
    pose proof (extract_video_cases video l) as Hcases.
    destruct (extract_video video l) as [[r|e] l1]; [|by inversion Hcases].
    specialize (IH l1). destruct (scan_videos rest l1) as [[data|e] l2]; [|done].
    destruct IH as (lines & Hlines & Hshape & Hlen & ->).
    inversion Hcases as [Hd Heq|te Hd Hte Hmiss Heq|te url ch Hd Hte Hurl Hchannel Heq];
      subst; cbn [List.filter]; rewrite Hd; cbn [negb].
    + exists lines. split_and!; try done.
      cbn [length repeat]. by rewrite <- app_assoc.
    + assert (Htitle : strip (text te) ≠ []
                       ∧ watch_url_search (strip (text te)) = false).
      { unfold drop_rule in Hd. rewrite Hte in Hd. by destruct (strip (text te)). }
      eexists (extractor_line (strip (text te)) url (default [] ch.1.1)
                 (default [] ch.1.2) (default [] ch.2) :: lines).
      split_and!.
      * cbn [writerows]. rewrite Hlines.
        unfold writerow. cbn. by destruct ch as [[[?|] [?|]] [?|]].
      * constructor; [|done]. destruct Htitle. by eexists _, _, _, _, _.
      * cbn [length]. by rewrite Hlen.
      * done.
Qed.

Lemma scan_videos_total (video_elements : list cursor) (l : list log_record) :
  Forall (λ v, links_have_href v = true) video_elements →
  ∃ videos_data l', scan_videos video_elements l = (Ok videos_data, l').
Proof.
  intros Hall. revert l. induction Hall as [|video rest Hv _ IH]; intros l.
  - by eexists _, _.
  - cbn [scan_videos]. run.
    destruct (extract_video_total video l Hv)
      as [[_ ->]|(_ & r & ? & ? & ? & ? & ? & -> & _)].
    + destruct (IH (l ++ [Warning_no_title])) as (data & l' & ->). by eexists _, _.
    + destruct (IH l) as (data & l' & ->). by eexists _, _.
Qed.

(** X1: when every link of the document has an href, the extractor
    writes its file: one line for each container the drop rule keeps,
    one warning for each container it drops, nothing else. *)
Theorem extract_data_from_html_accounts (soup : list node) (l : list log_record)
    (Hhref : links_have_href (soup_elements soup) = true) :
  ∃ file,
    extract_data_from_html soup l
    = (Ok file,
       l ++ repeat Warning_no_title
              (length (List.filter drop_rule
                         (find_all is_video_element (soup_elements soup))))) ∧
    length (rows file)
    = length (List.filter (λ v, negb (drop_rule v))
                (find_all is_video_element (soup_elements soup))) ∧
    length (rows file)
    + length (List.filter drop_rule (find_all is_video_element (soup_elements soup)))
    = length (find_all is_video_element (soup_elements soup)).
Proof.
  set (video_elements := find_all is_video_element (soup_elements soup)).
  assert (Hall : Forall (λ v, links_have_href v = true) video_elements).
  { apply Forall_forall. intros v Hv.
    destruct (find_all_suffix _ _ _ Hv) as [pre Hpre].
    apply (links_have_href_suffix pre). by rewrite <- Hpre. }
  destruct (scan_videos_total video_elements l Hall) as (data & l' & Hscan).
  pose proof (scan_videos_lines video_elements l) as Hlines.
  rewrite Hscan in Hlines. destruct Hlines as (lines & Hw & _ & Hlen & ->).
  exists {| header := fieldnames; rows := lines |}.
  unfold extract_data_from_html. fold video_elements. run. rewrite Hscan.
  unfold write_csv. rewrite Hw. cbn [mbind outcome_bind mret outcome_ret rows].
  split_and!; [done|done|].
  rewrite Hlen. clear. induction video_elements as [|v vs IH]; [done|].
  cbn [List.filter]. destruct (drop_rule v); cbn [negb length]; lia.
Qed.

Lemma extract_data_from_html_accounts_witness :
  ∃ file,
    extract_data_from_html [url_title_entry; history_entry; lone_title_entry] []
    = (Ok file, [Warning_no_title]) ∧ length (rows file) = 2.
Proof.
  destruct (extract_data_from_html_accounts
              [url_title_entry; history_entry; lone_title_entry] []
              ltac:(vm_compute; reflexivity)) as (file & Hrun & Hlen & _).
  exists file. split; [exact Hrun | exact Hlen].
Defined.

(** X2: whatever the document, every line of the file written starts
    with a non-empty title that holds no watch URL, and its
    video_duration cell and its seven last cells are empty. *)
Theorem extract_data_from_html_lines (soup : list node) (l : list log_record) :
  match extract_data_from_html soup l with
  | (Ok file, _) =>
      Forall (λ line,
                ∃ title url channel_name channel_url date_time,
                  line = [title; url; []; channel_name; channel_url; date_time;
                          []; []; []; []; []; []; []] ∧
                  title ≠ [] ∧ watch_url_search title = false) (rows file)
  | (Raise e, _) => e = KeyError "href"
  end.
Proof.
  unfold extract_data_from_html. run.
  pose proof (scan_videos_lines (find_all is_video_element (soup_elements soup)) l)
    as Hlines.
  destruct (scan_videos _ l) as [[data|e] l']; [|done].
  destruct Hlines as (lines & Hw & Hshape & _).
  unfold write_csv. rewrite Hw. cbn [mbind outcome_bind mret outcome_ret rows].
  exact Hshape.
Qed.

End DocumentClaims.


Section NextEntry.

Lemma text_in_document (rest : list node) :
  text_in 2 (soup_elements rest) = [].
Proof.
  destruct rest as [|n rest]; [done|].
  unfold soup_elements. cbn [flat_map]. by destruct n.
Qed.

(** The title link of an entry that holds nothing else, with the rest
    of the document after it. *)
Lemma lone_entry_run (title href : pystr) (rest : list node) (l : list log_record) :
  strip title ≠ [] → watch_url_search (strip title) = false →
  extract_video (soup_elements (lone_entry title href :: rest)) l
  = match first_tag "a" (soup_elements rest) with
    | Some link =>
        match getitem link "href" with
        | Ok channel_url =>
            (Ok (Some
               [("title", Some (strip title));
                ("url", Some href);
                ("video_duration", None);
                ("channel_name", Some (strip (text link)));
                ("channel_url", Some channel_url);
                ("date_time",
                 match find_next_sibling_string link with
                 | Some ((_ :: _) as s) => Some (strip s)
                 | _ => None
                 end);
                ("video_date_upload", None);
                ("video_views", None);
                ("video_likes", None);
                ("video_dislikes", None);
                ("video_comment_count", None);
                ("video_description", None);
                ("video_tags", None)]), l)
        | Raise e => (Raise e, l)
        end
    | None =>
        (Ok (Some
           [("title", Some (strip title));
            ("url", Some href);
            ("video_duration", None);
            ("channel_name", None);
            ("channel_url", None);
            ("date_time", None);
            ("video_date_upload", None);
            ("video_views", None);
            ("video_likes", None);
            ("video_dislikes", None);
            ("video_comment_count", None);
            ("video_description", None);
            ("video_tags", None)]), l)
    end.
Proof.
  intros Htitle Hnourl.
  unfold extract_video, soup_elements, lone_entry.
  cbn [flat_map linearize app find find_in is_tag String.eqb Ascii.eqb Bool.eqb
       Nat.ltb Nat.leb fmap option_fmap option_map text text_in].
  fold (soup_elements rest).
  rewrite text_in_document, (app_nil_r title).
  destruct (strip title) as [|c t] eqn:Ht; [done|].
  rewrite Hnourl. run.
  cbn [getitem assoc String.eqb Ascii.eqb Bool.eqb find_next first_tag is_tag].
  destruct (first_tag "a" (soup_elements rest)) as [link|]; [|done].
  destruct (getitem link "href") as [channel_url|e]; [|done].
  by destruct (find_next_sibling_string link) as [[|? ?]|].
Qed.

(** X3: the channel link is looked for in the whole rest of the
    document.  An entry that holds only its title link takes as its
    channel the first link that follows the entry in the document, and
    as its watch time the first string sibling after that link, if
    there is one; with an ordinary entry after it these are that
    entry's title, url and watch time.  It is left without channel and
    watch time only when no link follows. *)
Theorem channel_from_next_entry (title href : pystr) (rest : list node)
    (l : list log_record)
    (Htitle : strip title ≠ [])
    (Hnourl : watch_url_search (strip title) = false) :
  (first_tag "a" (soup_elements rest) = None →
   ∃ r, extract_video (soup_elements (lone_entry title href :: rest)) l
        = (Ok (Some r), l) ∧
        assoc "title" r = Some (Some (strip title)) ∧
        assoc "channel_name" r = Some None ∧
        assoc "channel_url" r = Some None ∧
        assoc "date_time" r = Some None) ∧
  (∀ link channel_url,
     first_tag "a" (soup_elements rest) = Some link →
     getitem link "href" = Ok channel_url →
     ∃ r, extract_video (soup_elements (lone_entry title href :: rest)) l
          = (Ok (Some r), l) ∧
          assoc "title" r = Some (Some (strip title)) ∧
          assoc "channel_name" r = Some (Some (strip (text link))) ∧
          assoc "channel_url" r = Some (Some channel_url) ∧
          assoc "date_time" r
          = Some (match find_next_sibling_string link with
                  | Some ((_ :: _) as s) => Some (strip s)
                  | _ => None
                  end)).
Proof.
  rewrite lone_entry_run by done. split.
  - intros ->. eexists. split; [reflexivity|]. by cbn.
  - intros link channel_url -> ->. eexists. split; [reflexivity|]. by cbn.
Qed.

Lemma channel_from_next_entry_witness :
  ∃ r, extract_video
         (soup_elements [lone_entry (py "An advert") (py "https://a.example/");
                         history_entry]) []
       = (Ok (Some r), []) ∧
       assoc "channel_name" r = Some (Some (py "A video")) ∧
       assoc "channel_url" r
       = Some (Some (py "https://www.youtube.com/watch?v=dQw4w9WgXcQ")) ∧
       assoc "date_time" r = Some (Some raw_watch_time).
Proof.
  edestruct (proj2 (channel_from_next_entry (py "An advert") (py "https://a.example/")
              [history_entry] []
              ltac:(vm_compute; discriminate) ltac:(vm_compute; reflexivity)))
    as (r & Hr & _ & Hname & Hurl & Hdate).
  - vm_compute. reflexivity.
  - vm_compute. reflexivity.
  - exists r. split; [exact Hr|]. split; [exact Hname|]. split; [exact Hurl|].
    exact Hdate.
Defined.
End NextEntry.


(** ** The pattern of the drop rule *)

Section PatternFacts.

Lemma startswith_spec (p s : pystr) :
  startswith p s = true → s = p ++ drop (length p) s.
Proof.
  revert s. induction p as [|a p IH]; intros [|b s]; simpl; try done.
  intros [Hab Hs]%andb_prop. apply N.eqb_eq in Hab as ->.
  f_equal. by apply IH.
Qed.

Lemma lit_spec (l : string) (s r : pystr) : lit l s = Some r → s = py l ++ r.
Proof.
  unfold lit. destruct (startswith (py l) s) eqn:Hs; [|done].
  intros [= <-]. by apply startswith_spec.
Qed.

Lemma lit_app (l : string) (r : pystr) : lit l (py l ++ r) = Some r.
Proof.
  unfold lit. rewrite startswith_app. by rewrite drop_app_length.
Qed.

Lemma opt_spec (l : string) (s r : pystr) :
  r ∈ opt l s → s = r ∨ s = py l ++ r.
Proof.
  unfold opt. destruct (lit l s) as [r'|] eqn:Hl.
  - intros [->|Hr]%elem_of_cons; [right; by apply lit_spec|].
    apply list_elem_of_singleton in Hr as ->. by left.
  - intros Hr. apply list_elem_of_singleton in Hr as ->. by left.
Qed.

Lemma watch_url_at_spec (s : pystr) :
  watch_url_at s = true →
  ∃ secure www c b, id_char c = true ∧ s = watch_url_text secure www ++ c :: b.
Proof.
  unfold watch_url_at.
  destruct (lit "http" s) as [r1|] eqn:H1; [|done]. apply lit_spec in H1 as ->.
  intros (r2 & Hr2 & H2)%existsb_exists. apply list_elem_of_In in Hr2.
  destruct (lit "://" r2) as [r3|] eqn:H3; [|done]. apply lit_spec in H3 as ->.
  apply existsb_exists in H2 as (r4 & Hr4 & H4). apply list_elem_of_In in Hr4.
  destruct (lit "youtube.com/watch?v=" r4) as [[|c b]|] eqn:H5; try done.
  apply lit_spec in H5 as ->.
  apply opt_spec in Hr2, Hr4.
  exists (bool_decide (r1 ≠ py "://" ++ r3)), (bool_decide (r3 ≠ py "youtube.com/watch?v=" ++ c :: b)), c, b.
  split; [done|]. unfold watch_url_text.
  destruct Hr2 as [->| ->], Hr4 as [->| ->].
  - rewrite !bool_decide_eq_false_2 by (by intros []). by rewrite <- !app_assoc.
  - rewrite (bool_decide_eq_false_2 (_ ≠ _)) by (by intros []).
    rewrite bool_decide_eq_true_2; [by rewrite <- !app_assoc|].
    intros H. by apply (f_equal (λ x, x !! 0)) in H.
  - rewrite bool_decide_eq_true_2.
    2:{ intros H. by apply (f_equal (λ x, x !! 0)) in H. }
    rewrite bool_decide_eq_false_2 by (by intros []). by rewrite <- !app_assoc.
  - rewrite bool_decide_eq_true_2.
    2:{ intros H. by apply (f_equal (λ x, x !! 0)) in H. }
    rewrite bool_decide_eq_true_2; [by rewrite <- !app_assoc|].
    intros H. by apply (f_equal (λ x, x !! 0)) in H.
Qed.

Lemma existsb_opt_present (f : pystr → bool) (l : string) (r : pystr) :
  f r = true → existsb f (opt l (py l ++ r)) = true.
Proof. intros Hf. unfold opt. rewrite lit_app. cbn [existsb]. by rewrite Hf. Qed.

Lemma existsb_opt_absent (f : pystr → bool) (l : string) (s : pystr) :
  f s = true → existsb f (opt l s) = true.
Proof.
  intros Hf. unfold opt. destruct (lit l s); cbn [existsb]; rewrite Hf;
    by rewrite ?orb_true_r.
Qed.

Lemma watch_url_at_text (secure www : bool) (c : N) (b : pystr) :
  id_char c = true → watch_url_at (watch_url_text secure www ++ c :: b) = true.
Proof.
  intros Hc. unfold watch_url_at, watch_url_text.
  rewrite <- !app_assoc, lit_app.
  assert (Hhost : ∀ r,
    r = (if www then py "www." else []) ++ py "youtube.com/watch?v=" ++ c :: b →
    existsb (λ r4, match lit "youtube.com/watch?v=" r4 with
                   | Some (c0 :: _) => id_char c0
                   | _ => false
                   end) (opt "www." r) = true).
  { intros r ->. destruct www.
    - apply existsb_opt_present. by rewrite lit_app.
    - apply existsb_opt_absent. cbn [app]. by rewrite lit_app. }
  destruct secure.
  - apply existsb_opt_present. rewrite lit_app. by apply Hhost.
  - apply existsb_opt_absent. cbn [app]. rewrite lit_app. by apply Hhost.
Qed.

Lemma watch_url_search_spec (s : pystr) :
  watch_url_search s = true ↔ ∃ a s', s = a ++ s' ∧ watch_url_at s' = true.
Proof.
  split.
  - induction s as [|x s IH]; cbn [watch_url_search].
    + rewrite orb_false_r. intros H. by exists [], [].
    + intros [H|H]%orb_prop; [by exists [], (x :: s)|].
      destruct (IH H) as (a & s' & -> & Hs'). by exists (x :: a), s'.
  - intros (a & s' & -> & Hs'). induction a as [|x a IH].
    + destruct s'; cbn [app watch_url_search]; by rewrite Hs'.
    + cbn [app watch_url_search]. rewrite IH. apply orb_true_r.
Qed.

(** X4: the pattern of the drop rule finds a match in a text exactly
    when the text holds, at some place, http or https, ://, www. or
    nothing, youtube.com/watch?v= and at least one character of an
    identifier. *)
Theorem watch_url_search_iff (s : pystr) :
  watch_url_search s = true ↔
  ∃ a secure www c b,
    id_char c = true ∧ s = a ++ watch_url_text secure www ++ c :: b.
Proof.
  rewrite watch_url_search_spec. split.
  - intros (a & s' & -> & Hs').
    destruct (watch_url_at_spec s' Hs') as (secure & www & c & b & Hc & ->).
    by exists a, secure, www, c, b.
  - intros (a & secure & www & c & b & Hc & ->).
    exists a, (watch_url_text secure www ++ c :: b). split; [done|].
    by apply watch_url_at_text.
Qed.

Lemma watch_url_search_iff_witness :
  watch_url_search (py "see http://youtube.com/watch?v=a_b") = true.
Proof.
  apply (proj2 (watch_url_search_iff _)).
  exists (py "see "), false, false, 97%N, (py "_b").
  split; vm_compute; reflexivity.
Defined.

End PatternFacts.


(** ** More on the normalization of watch times *)

Section CleanDateTimeMore.

Lemma replace_go_forallb (P : N → bool) (old new s : pystr) (skip : nat) :
  forallb P new = true → forallb P s = true →
  forallb P (replace_go old new skip s) = true.
Proof.
  intros Hnew. revert skip. induction s as [|c s IH]; intros skip; [done|].
  cbn [forallb]. intros [Hc Hs]%andb_prop. cbn [replace_go].
  destruct skip as [|k]; [|by apply IH].
  destruct (startswith old (c :: s)).
  - rewrite forallb_app, Hnew. by apply IH.
  - cbn [forallb]. rewrite Hc. by apply IH.
Qed.

Lemma filter_is_ascii (s : pystr) :
  is_ascii (List.filter (λ c, N.ltb c 128) s) = true.
Proof.
  unfold is_ascii. induction s as [|c s IH]; [done|]. cbn [List.filter].
  destruct (N.ltb c 128) eqn:Hc; [|done]. cbn [forallb]. by rewrite Hc.
Qed.

(** X5: whatever the text, the normalized watch time holds ASCII
    characters only. *)
Theorem clean_date_time_ascii (date_time : pystr) :
  is_ascii (clean_date_time date_time) = true.
Proof.
  unfold clean_date_time.
  pose proof (filter_is_ascii date_time) as Hf.
  destruct (contains _ _); apply replace_go_forallb; done.
Qed.

(** X6: a text whose ASCII characters hold neither marker (a 24-hour
    time, say) is returned with its non-ASCII characters taken out and
    nothing else changed. *)
Theorem clean_date_time_no_marker (date_time : pystr)
    (Hpm : contains (py "PM") (List.filter (λ c, N.ltb c 128) date_time) = false)
    (Ham : contains (py "AM") (List.filter (λ c, N.ltb c 128) date_time) = false) :
  clean_date_time date_time = List.filter (λ c, N.ltb c 128) date_time.
Proof.
  unfold clean_date_time. rewrite Hpm.
  change (py "AM") with [65%N; 77%N] in *. by apply replace_absent.
Qed.

Lemma clean_date_time_no_marker_witness :
  clean_date_time (py "13 nov 2023, 18:06:22" ++ [160%N] ++ py "CET")
  = py "13 nov 2023, 18:06:22CET".
Proof.
  refine (clean_date_time_no_marker
            (py "13 nov 2023, 18:06:22" ++ [160%N] ++ py "CET") _ _);
    vm_compute; reflexivity.
Defined.

Lemma contains_snoc (x y u : N) (t : pystr) :
  contains [x; y] t = false → u ≠ y → contains [x; y] (t ++ [u]) = false.
Proof.
  intros Ht Huy. induction t as [|a t IH].
  - simpl. by rewrite andb_false_r.
  - cbn [contains] in Ht. apply orb_false_elim in Ht as [Hs Ht].
    cbn [app contains]. rewrite IH by done. rewrite orb_false_r.
    simpl in *. destruct (N.eqb x a); [|done]. simpl in *.
    destruct t as [|b t]; simpl in *.
    + destruct (N.eqb_spec y u); [congruence|done].
    + by destruct (N.eqb y b).
Qed.

(** X7: the space is put before the marker without looking at what is
    there: a marker that already follows an ASCII space gets a second
    one, and so does a text that is normalized twice. *)
Theorem clean_date_time_second_space (time : pystr) (space : N)
    (Hascii : is_ascii time = true)
    (Hspace : (128 ≤ space)%N)
    (Hpm : contains (py "PM") time = false) :
  clean_date_time (time ++ py " PM") = time ++ py "  PM" ∧
  clean_date_time (clean_date_time (time ++ [space] ++ py "PM"))
  = time ++ py "  PM".
Proof.
  assert (Hone : clean_date_time (time ++ py " PM") = time ++ py "  PM").
  { unfold clean_date_time.
    assert (Hf : List.filter (λ c, N.ltb c 128) (time ++ py " PM")
                 = (time ++ [32%N]) ++ [80%N; 77%N]).
    { rewrite List.filter_app, filter_ascii_id by done. by rewrite <- app_assoc. }
    rewrite Hf. change (py "PM") with [80%N; 77%N] in *.
    rewrite contains_marker, replace_marker; [by rewrite <- app_assoc|done|].
    by apply contains_snoc. }
  split; [exact Hone|].
  assert (Hfirst : clean_date_time (time ++ [space] ++ py "PM") = time ++ py " PM").
  { unfold clean_date_time.
    assert (Hf : List.filter (λ c, N.ltb c 128) (time ++ [space] ++ py "PM")
                 = time ++ [80%N; 77%N]).
    { rewrite !List.filter_app, filter_ascii_id by done.
      simpl. destruct (N.ltb_spec space 128); [lia|done]. }
    rewrite Hf. change (py "PM") with [80%N; 77%N] in *.
    by rewrite contains_marker, replace_marker. }
  by rewrite Hfirst.
Qed.

Lemma clean_date_time_second_space_witness :
  clean_date_time (py "6:06:22 PM") = py "6:06:22  PM".
Proof.
  refine (proj1 (clean_date_time_second_space (py "6:06:22") 8239 _ _ _));
    vm_compute; (reflexivity || discriminate).
Defined.

End CleanDateTimeMore.


(** ** More on durations and upload timestamps *)

Section WireMore.

Lemma digits_of_length_ge (fuel k : nat) (n : N) :
  (10 ^ N.of_nat k ≤ n)%N → k < fuel → S k ≤ length (digits_of fuel n).
Proof.
  revert k n. induction fuel as [|f IH]; intros k n Hn Hk; [lia|].
  cbn [digits_of]. destruct (N.ltb_spec n 10) as [Hlt|Hge].
  - destruct k as [|k]; [simpl; lia|].
    rewrite Nat2N.inj_succ, N.pow_succ_r' in Hn.
    assert (1 ≤ 10 ^ N.of_nat k)%N by (apply N.lt_succ_r, N.lt_pred_lt_succ; simpl;
      pose proof (N.pow_nonzero 10 (N.of_nat k)); lia).
    lia.
  - rewrite length_app. cbn [length]. destruct k as [|k]; [lia|].
    rewrite Nat2N.inj_succ, N.pow_succ_r' in Hn.
    assert (10 ^ N.of_nat k ≤ n / 10)%N.
    { apply N.div_le_lower_bound; lia. }
    specialize (IH k (n / 10)%N H ltac:(lia)). lia.
Qed.

Lemma str_N_three_digits (n : N) : (100 ≤ n)%N → 3 ≤ length (str_N n).
Proof.
  intros Hn. unfold str_N. apply (digits_of_length_ge _ 2); [exact Hn|].
  assert (2 < N.size n)%N; [|lia].
  pose proof (N.size_gt n) as Hs.
  destruct (N.lt_ge_cases 2 (N.size n)) as [|Hle]; [done|].
  assert (2 ^ N.size n ≤ 2 ^ 2)%N by (apply N.pow_le_mono_r; lia).
  simpl in *. lia.
Qed.

(** X8: for a total of seconds n >= 0 the text has the eight
    characters of HH:MM:SS exactly when n is below 100 hours; from 100
    hours on the hour field takes more digits and the text is longer. *)
Theorem format_hms_length (n : Z) (Hn : (0 ≤ n)%Z) :
  ((n < 360000)%Z → length (format_hms n) = 8) ∧
  ((360000 ≤ n)%Z → 9 ≤ length (format_hms n)).
Proof.
  rewrite format_hms_nonneg by done.
  pose proof (Z.mod_pos_bound n 3600 ltac:(lia)) as Hr.
  pose proof (Z.mod_pos_bound n 60 ltac:(lia)) as Hs.
  assert (Hm : (0 ≤ (n mod 3600) / 60 < 60)%Z).
  { split; [apply Z.div_pos; lia|]. apply Z.div_lt_upper_bound; lia. }
  rewrite !length_app.
  rewrite (zfill_length 1 (Z.to_N (n mod 3600 / 60))) by (simpl; lia).
  rewrite (zfill_length 1 (Z.to_N (n mod 60))) by (simpl; lia).
  change (length (py ":")) with 1. split.
  - intros Hlt.
    assert (0 ≤ n / 3600 < 100)%Z.
    { split; [apply Z.div_pos; lia|]. apply Z.div_lt_upper_bound; lia. }
    rewrite (zfill_length 1) by (simpl; lia). reflexivity.
  - intros Hge.
    assert (100 ≤ n / 3600)%Z by (apply Z.div_le_lower_bound; lia).
    pose proof (str_N_three_digits (Z.to_N (n / 3600)) ltac:(lia)) as H3.
    unfold zfill at 1. rewrite length_app. lia.
Qed.

Lemma format_hms_length_witness :
  length (format_hms 360000) ≥ 9 ∧ length (format_hms 359999) = 8.
Proof.
  split.
  - apply (proj2 (format_hms_length 360000 ltac:(lia))). lia.
  - apply (proj1 (format_hms_length 359999 ltac:(lia))). lia.
Defined.

(** X9: the hours come from a floor division, so a total between minus
    one hour and zero is written with the hour -1 and the minutes and
    seconds counted up from it: -1 second gives -1:59:59. *)
Theorem format_hms_negative (n : Z) (Hn : (-3600 ≤ n < 0)%Z) :
  format_hms n
  = py "-1:" ++ two_digits ((n + 3600) / 60) ++ py ":"
    ++ two_digits ((n + 3600) mod 60).
Proof.
  unfold format_hms.
  assert (Hh : (n / 3600 = -1)%Z).
  { symmetry. apply (Z.div_unique n 3600 (-1) (n + 3600)); lia. }
  assert (Hr : (n mod 3600 = n + 3600)%Z).
  { symmetry. apply (Z.mod_unique n 3600 (-1) (n + 3600)); lia. }
  assert (Hs : (n mod 60 = (n + 3600) mod 60)%Z).
  { replace (n + 3600)%Z with (n + 60 * 60)%Z by lia.
    by rewrite Z.mod_add. }
  cbv zeta. rewrite Hh, Hr, Hs.
  pose proof (Z.mod_pos_bound (n + 3600) 60 ltac:(lia)).
  assert (0 ≤ (n + 3600) / 60 < 100)%Z.
  { split; [apply Z.div_pos; lia|]. apply Z.div_lt_upper_bound; lia. }
  assert (Hminus : format_0d 2 (-1) = py "-1") by (vm_compute; reflexivity).
  rewrite Hminus, !format_0d_two_digits by lia. reflexivity.
Qed.

Lemma format_hms_negative_witness : format_hms (-1) = py "-1:59:59".
Proof. apply (format_hms_negative (-1)). lia. Defined.

Local Open Scope N_scope.

Lemma fromisoformat_tail (y mo d h mi s : N) (tail : pystr) :
  1 ≤ y ≤ 9999 → 1 ≤ mo ≤ 12 → 1 ≤ d ≤ days_in_month y mo →
  h < 24 → mi < 60 → s < 60 → fraction_tz_ok tail = true →
  fromisoformat (iso_date y mo d ++ py "T" ++ iso_time h mi s ++ tail)
  = Ok {| year := y; month := mo; day := d;
          hour := h; minute := mi; second := s |}.
Proof.
  intros Hy Hmo Hd Hh Hmi Hs Htail.
  pose proof (days_in_month_le y mo) as Hdm.
  unfold fromisoformat, iso_date, iso_time.
  change (py "-") with [45%N]. change (py ":") with [58%N].
  change (py "T") with [84%N].
  rewrite <- !app_assoc.
  rewrite (fixed_digits_zfill 3) by (simpl; lia).
  cbn [mbind option_bind app expect N.eqb Pos.eqb].
  rewrite (fixed_digits_zfill 1) by (simpl; lia).
  cbn [mbind option_bind app expect N.eqb Pos.eqb].
  rewrite (fixed_digits_zfill 1) by (simpl; lia).
  cbn [mbind option_bind app expect N.eqb Pos.eqb].
  assert (Hdate : N.leb 1 y && N.leb 1 mo && N.leb mo 12 && N.leb 1 d
                  && N.leb d (days_in_month y mo) = true).
  { repeat (apply andb_true_intro; split); apply N.leb_le; lia. }
  rewrite Hdate. cbn [negb].
  rewrite (fixed_digits_zfill 1) by (simpl; lia).
  cbn [mbind option_bind app expect N.eqb Pos.eqb].
  rewrite (fixed_digits_zfill 1) by (simpl; lia).
  cbn [mbind option_bind app expect N.eqb Pos.eqb].
  rewrite (fixed_digits_zfill 1 s tail) by (simpl; lia).
  cbn [mbind option_bind]. rewrite Htail. cbn [mbind option_bind].
  assert (Htime : N.ltb h 24 && N.ltb mi 60 && N.ltb s 60 = true).
  { repeat (apply andb_true_intro; split); apply N.ltb_lt; lia. }
  by rewrite Htime.
Qed.

Lemma tz_ok_offset (east : bool) (oh om : N) :
  oh < 24 → om < 60 → tz_ok (offset_text east oh om) = true.
Proof.
  intros Hh Hm.
  assert (Hbody :
    match (' (h, r1) ← fixed_digits 2 (zfill 2 (str_N oh) ++ py ":" ++ zfill 2 (str_N om));
           r2 ← expect 58 r1;
           ' (m, r3) ← fixed_digits 2 r2;
           Some (N.ltb h 24 && N.ltb m 60 && bool_decide (r3 = []))) with
    | Some b => b
    | None => false
    end = true).
  { change (py ":") with [58%N].
    rewrite (fixed_digits_zfill 1) by (simpl; lia).
    cbn [mbind option_bind app expect N.eqb Pos.eqb].
    pose proof (fixed_digits_zfill 1 om [] ltac:(simpl; lia)) as Hom.
    rewrite app_nil_r in Hom. rewrite Hom. cbn [mbind option_bind].
    by rewrite (proj2 (N.ltb_lt _ _) Hh), (proj2 (N.ltb_lt _ _) Hm). }
  unfold offset_text. destruct east.
  - change (py "+") with [43%N]. cbn [app]. exact Hbody.
  - change (py "-") with [45%N]. cbn [app]. exact Hbody.
Qed.

(** X10: what follows the seconds in an upload timestamp is checked and
    dropped: a fraction of a second before the Z is not printed, and a
    zone offset is not applied, the date and the time of day printed are
    those written in the text. *)
Theorem process_datetime_tail (y mo d h mi s : N) (fraction : pystr)
    (east : bool) (oh om : N)
    (Hy : 1000 ≤ y ≤ 9999) (Hmo : 1 ≤ mo ≤ 12)
    (Hd : 1 ≤ d ≤ days_in_month y mo)
    (Hh : h < 24) (Hmi : mi < 60) (Hs : s < 60)
    (Hfraction : forallb is_digit fraction = true ∧ fraction ≠ [])
    (Hoh : oh < 24) (Hom : om < 60) :
  process_datetime (iso_date y mo d ++ py "T" ++ iso_time h mi s ++ py "."
                    ++ fraction ++ py "Z")
  = Ok (iso_date y mo d ++ py " " ++ iso_time h mi s) ∧
  process_datetime (iso_date y mo d ++ py "T" ++ iso_time h mi s
                    ++ offset_text east oh om)
  = Ok (iso_date y mo d ++ py " " ++ iso_time h mi s).
Proof.
  assert (Hfmt : ∀ tail, fraction_tz_ok tail = true →
    process_datetime (iso_date y mo d ++ py "T" ++ iso_time h mi s ++ tail)
    = Ok (iso_date y mo d ++ py " " ++ iso_time h mi s)).
  { intros tail Htail. unfold process_datetime.
    rewrite fromisoformat_tail by (done || lia).
    cbn [mbind outcome_bind mret outcome_ret]. f_equal.
    unfold strftime, iso_date, iso_time. cbn [year month day hour minute second].
    by rewrite <- !app_assoc. }
  split.
  - apply Hfmt. destruct Hfraction as [Hdigits Hne].
    change (py ".") with [46%N]. change (py "Z") with [90%N].
    cbn [app fraction_tz_ok N.eqb Pos.eqb orb].
    rewrite span_digits_run by done.
    by destruct fraction.
  - apply Hfmt. pose proof (tz_ok_offset east oh om Hoh Hom) as Htz.
    unfold fraction_tz_ok, offset_text in *.
    destruct east.
    + change (py "+") with [43%N] in *. cbn [app] in *. exact Htz.
    + change (py "-") with [45%N] in *. cbn [app] in *. exact Htz.
Qed.

Lemma process_datetime_tail_witness :
  process_datetime (py "2009-10-25T06:57:33.000Z") = Ok (py "2009-10-25 06:57:33") ∧
  process_datetime (py "2009-10-25T06:57:33+05:30") = Ok (py "2009-10-25 06:57:33").
Proof.
  refine (process_datetime_tail 2009 10 25 6 57 33 (py "000") true 5 30
            _ _ _ _ _ _ _ _ _);
    vm_compute; try reflexivity; split; (reflexivity || discriminate).
Defined.

End WireMore.


(** ** More on the enricher *)

Section MappingFacts.

(** X11: a count the service leaves out is not an error and reads as
    0: without dislikeCount the mapping gives the same values with
    video_dislikes = 0, and without the statistics facet the four
    counts are 0. *)
Theorem absent_counts_are_zero (info : snippet) (details : contentDetails)
    (stats : statistics) (values : list cell)
    (Hvalues : field_mapping info details stats = Ok values) :
  field_mapping info details (without_dislikes stats)
  = Ok (<[3 := Int 0]> values) ∧
  field_mapping info details empty_statistics
  = Ok (<[1 := Int 0]> (<[2 := Int 0]> (<[3 := Int 0]> (<[4 := Int 0]> values)))).
Proof.
  revert Hvalues. unfold field_mapping, without_dislikes, empty_statistics.
  cbn [viewCount likeCount dislikeCount commentCount int_or_zero].
  run.
  destruct (process_datetime _) as [date|]; [|done].
  destruct (int_or_zero (viewCount stats)) as [views|]; [|done].
  destruct (int_or_zero (likeCount stats)) as [likes|]; [|done].
  destruct (int_or_zero (dislikeCount stats)) as [dislikes|]; [|done].
  destruct (int_or_zero (commentCount stats)) as [comments|]; [|done].
  destruct (clean_duration_time _) as [dur|]; [|done].
  by intros [= <-].
Qed.

Lemma absent_counts_are_zero_witness :
  field_mapping {| publishedAt := Some (py "2009-10-25T06:57:33Z");
                   description := None; tags := None |}
                {| duration := Some (py "PT3M33S") |} empty_statistics
  = Ok [Str (py "2009-10-25 06:57:33"); Int 0; Int 0; Int 0; Int 0;
        Str []; Str []; Str (py "00:03:33")].
Proof.
  refine (proj2 (absent_counts_are_zero
            {| publishedAt := Some (py "2009-10-25T06:57:33Z");
               description := None; tags := None |}
            {| duration := Some (py "PT3M33S") |}
            {| viewCount := Some (py "7"); likeCount := None;
               dislikeCount := None; commentCount := None |}
            [Str (py "2009-10-25 06:57:33"); Int 7; Int 0; Int 0; Int 0;
             Str []; Str []; Str (py "00:03:33")] _)).
  vm_compute. reflexivity.
Defined.

End MappingFacts.

Section RowFacts.

(** A row with a watch URL: the identifier is taken and the [try]
    statement runs after the debug record. *)
Lemma process_row_canonical (youtube : pystr → outcome response) (astype : cast)
    (row : list (string * option pystr)) (u : pystr) (w : world) :
  assoc "url" row = Some (Some u) →
  contains watch_prefix u = true →
  replace watch_prefix [] u ≠ [] →
  process_row youtube astype row w
  = try_except (lookup_and_update youtube astype u (replace watch_prefix [] u))
      (λ e, logging (Warning_error (replace watch_prefix [] u) e))
      (add_record (Debug_processing u) w).
Proof.
  intros Hurl Hc Hid. unfold process_row.
  cbv [mbind M_bind mret M_ret lift logging facet]. rewrite Hurl.
  rewrite extract_video_id_found by done.
  by destruct (replace watch_prefix [] u).
Qed.

(** X12: a response that lacks the snippet facet, the contentDetails
    facet or the upload timestamp never updates the table: the row is
    logged with the KeyError or the ValueError and left as it was. *)
Theorem incomplete_response_skips_row (youtube : pystr → outcome response) (astype : cast)
    (row : list (string * option pystr))
    (u : pystr) (w : world) (video_response : response) (first : item)
    (others : list item)
    (Hurl : assoc "url" row = Some (Some u))
    (Hprefix : contains watch_prefix u = true)
    (Hid : replace watch_prefix [] u ≠ [])
    (Hresponse : youtube (replace watch_prefix [] u) = Ok video_response)
    (Hitems : items video_response = Some (first :: others)) :
  let skipped e :=
    process_row youtube astype row w
    = (Ok (), {| table := table w;
                 logged := logged w
                           ++ [Debug_processing u;
                               Warning_error (replace watch_prefix [] u) e] |}) in
  (item_snippet first = None → skipped (KeyError "snippet")) ∧
  (is_Some (item_snippet first) → item_contentDetails first = None →
   skipped (KeyError "contentDetails")) ∧
  (∀ info details, item_snippet first = Some info →
     item_contentDetails first = Some details → publishedAt info = None →
     skipped (ValueError "Invalid isoformat string")).
Proof.
  intros skipped. unfold skipped.
  rewrite (process_row_canonical youtube astype row u w) by done.
  unfold try_except, lookup_and_update, read_csv, facet.
  cbv [mbind M_bind mret M_ret lift logging add_record world_logger].
  cbn [table logged]. rewrite Hresponse, Hitems.
  split_and!.
  - intros ->. cbn [table logged]. by rewrite <- app_assoc.
  - intros [info ->] ->. cbn [table logged]. by rewrite <- app_assoc.
  - intros info details -> -> Hdate. unfold field_mapping. rewrite Hdate.
    cbn. by rewrite <- app_assoc.
Qed.

Lemma incomplete_response_skips_row_witness :
  process_row bare_youtube widening (reader_row (watch_url "dQw4w9WgXcQ")) sample_world
  = (Ok (), {| table := sample_table;
               logged := [Debug_processing (watch_url "dQw4w9WgXcQ");
                          Warning_error (py "dQw4w9WgXcQ") (KeyError "snippet")] |}).
Proof.
  refine (proj1 (incomplete_response_skips_row bare_youtube widening
            (reader_row (watch_url "dQw4w9WgXcQ")) (watch_url "dQw4w9WgXcQ")
            sample_world _ _ [] _ _ _ _ _) _);
    vm_compute; (reflexivity || discriminate).
Defined.

(** X13: when the service returns no item for the identifier (no items
    key, or an empty list), the table is left as it was and one warning
    names the identifier. *)
Theorem lookup_miss_leaves_row (youtube : pystr → outcome response) (astype : cast)
    (row : list (string * option pystr))
    (u : pystr) (w : world) (video_response : response)
    (Hurl : assoc "url" row = Some (Some u))
    (Hprefix : contains watch_prefix u = true)
    (Hid : replace watch_prefix [] u ≠ [])
    (Hresponse : youtube (replace watch_prefix [] u) = Ok video_response)
    (Hitems : items video_response = None ∨ items video_response = Some []) :
  process_row youtube astype row w
  = (Ok (), {| table := table w;
               logged := logged w
                         ++ [Debug_processing u;
                             Warning_no_items (replace watch_prefix [] u)] |}).
Proof.
  rewrite (process_row_canonical youtube astype row u w) by done.
  unfold try_except, lookup_and_update.
  cbv [mbind M_bind mret M_ret lift logging add_record world_logger].
  cbn [table logged]. rewrite Hresponse.
  destruct Hitems as [-> | ->]; cbn [table logged]; by rewrite <- app_assoc.
Qed.

Lemma lookup_miss_leaves_row_witness :
  process_row silent_youtube widening (reader_row (watch_url "dQw4w9WgXcQ")) sample_world
  = (Ok (), {| table := sample_table;
               logged := [Debug_processing (watch_url "dQw4w9WgXcQ");
                          Warning_no_items (py "dQw4w9WgXcQ")] |}).
Proof.
  refine (lookup_miss_leaves_row silent_youtube widening
            (reader_row (watch_url "dQw4w9WgXcQ")) (watch_url "dQw4w9WgXcQ")
            sample_world _ _ _ _ _ _);
    vm_compute; (reflexivity || discriminate || (right; reflexivity)).
Defined.

End RowFacts.


Section PassFacts.




(** X15: the service is asked about the rows with a watch URL only, and
    about their identifiers: two services that agree on the non-empty
    identifiers of these rows give the same pass, table and log. *)
Theorem service_asked_for_watch_urls (youtube1 youtube2 : pystr → outcome response)
    (astype : cast)
    (reader : list (list (string * option pystr))) (w : world)
    (Hagree : ∀ row u, row ∈ reader → assoc "url" row = Some (Some u) →
       contains watch_prefix u = true → replace watch_prefix [] u ≠ [] →
       youtube1 (replace watch_prefix [] u) = youtube2 (replace watch_prefix [] u)) :
  extract_data_from_api youtube1 astype reader w
  = extract_data_from_api youtube2 astype reader w.
Proof.
  revert w. induction reader as [|row reader IH]; intros w; [done|].
  cbn [extract_data_from_api]. cbv [mbind M_bind].
  assert (Hrow : process_row youtube1 astype row w = process_row youtube2 astype row w).
  { unfold process_row. cbv [mbind M_bind mret M_ret lift logging facet].
    destruct (assoc "url" row) as [[u|]|] eqn:Hurl; [|done|done].
    destruct (contains watch_prefix u) eqn:Hc.
    2:{ by rewrite extract_video_id_invalid by (by intros ? [= <-]). }
    rewrite extract_video_id_found by done.
    destruct (replace watch_prefix [] u) as [|c video_id] eqn:Hid; [done|].
    unfold try_except, lookup_and_update. cbv [mbind M_bind lift].
    rewrite <- Hid, (Hagree row u); [done|by left|done|done|].
    by rewrite Hid. }
  rewrite Hrow. destruct (process_row youtube2 astype row w) as [[[]|e] w1]; [|done].
  apply IH. intros row' u Hin. apply Hagree. by right.
Qed.

Lemma service_asked_for_watch_urls_witness :
  extract_data_from_api sample_youtube widening
    [reader_row (py "https://youtu.be/dQw4w9WgXcQ"); reader_row watch_prefix]
    sample_world
  = extract_data_from_api silent_youtube widening
      [reader_row (py "https://youtu.be/dQw4w9WgXcQ"); reader_row watch_prefix]
      sample_world.
Proof.
  apply service_asked_for_watch_urls.
  intros row u Hin Hurl Hc Hid. exfalso.
  apply elem_of_cons in Hin as [->|Hin].
  - vm_compute in Hurl. injection Hurl as <-. vm_compute in Hc. discriminate Hc.
  - apply list_elem_of_singleton in Hin as ->.
    vm_compute in Hurl. injection Hurl as <-. apply Hid. vm_compute. reflexivity.
Defined.

End PassFacts.


Section EmptyIdentifier.

(** X17: a url that holds the prefix and nothing else (the prefix
    alone, or repeated) has the empty identifier: the service is not
    asked, the table is not touched, and the only warning is that the
    identifier could not be extracted. *)
Theorem empty_identifier_is_a_failure (youtube : pystr → outcome response) (astype : cast)
    (row : list (string * option pystr)) (u : pystr) (w : world)
    (Hurl : assoc "url" row = Some (Some u))
    (Hprefix : contains watch_prefix u = true)
    (Hempty : replace watch_prefix [] u = []) :
  process_row youtube astype row w
  = (Ok (), {| table := table w;
               logged := logged w ++ [Debug_processing u;
                                      Warning_failed_extract (Some u)] |}).
Proof.
  unfold process_row. cbv [mbind M_bind mret M_ret lift logging facet].
  rewrite Hurl, extract_video_id_found by done. rewrite Hempty.
  cbv [add_record world_logger]. cbn [table logged]. by rewrite <- app_assoc.
Qed.

Lemma empty_identifier_is_a_failure_witness :
  process_row sample_youtube widening (reader_row (watch_prefix ++ watch_prefix))
    sample_world
  = (Ok (), {| table := sample_table;
               logged := [Debug_processing (watch_prefix ++ watch_prefix);
                          Warning_failed_extract (Some (watch_prefix ++ watch_prefix))] |}).
Proof.
  refine (empty_identifier_is_a_failure sample_youtube widening
            (reader_row (watch_prefix ++ watch_prefix)) (watch_prefix ++ watch_prefix)
            sample_world _ _ _); vm_compute; reflexivity.
Defined.

End EmptyIdentifier.
